(** * Witrn USB-meter front end: packet fan-out, rate gates, rolling plot
      window and connection lifecycle

    Shallow embedding of [witrn-ui-bokeh.py].  The module-level variables of
    the script, the widgets it touches, the document's queue of next-tick
    callbacks and the CSV files it appends to are gathered in one record
    [world]; every routine of the script is a function on that record.
    Wall-clock readings ([datetime.now()]) and the outcome of talking to the
    meter are inputs of the routines that consult them. *)

From Stdlib Require Import ZArith Lia Bool List String Ascii PrimFloat.
From stdpp Require Import base option list strings functions gmap.
Import ListNotations.

Local Open Scope Z_scope.

(** ** Python's [datetime] and [timedelta], as far as the script uses them *)

(** A naive [datetime] value: the civil fields Python stores. *)
Record datetime := {
  year : Z; month : Z; day : Z;
  hour : Z; minute : Z; second : Z; microsecond : Z
}.

#[global] Instance datetime_eq_dec : EqDecision datetime.
Proof. solve_decision. Defined.

Definition is_leap (y : Z) : bool :=
  (y mod 4 =? 0) && (negb (y mod 100 =? 0) || (y mod 400 =? 0)).

Definition days_before_year (y : Z) : Z :=
  let p := y - 1 in p * 365 + p / 4 - p / 100 + p / 400.

Definition DAYS_BEFORE_MONTH (m : Z) : Z :=
  match m with
  | 1 => 0 | 2 => 31 | 3 => 59 | 4 => 90 | 5 => 120 | 6 => 151
  | 7 => 181 | 8 => 212 | 9 => 243 | 10 => 273 | 11 => 304 | 12 => 334
  | _ => -1
  end.

Definition days_before_month (y m : Z) : Z :=
  DAYS_BEFORE_MONTH m + (if (2 <? m) && is_leap y then 1 else 0).

(** [datetime.toordinal]: proleptic Gregorian day number. *)
Definition toordinal (d : datetime) : Z :=
  days_before_year (year d) + days_before_month (year d) (month d) + day d.

(** A [timedelta] is normalised by Python to (days, seconds, microseconds);
    comparing two of them is comparing their total number of microseconds,
    which is how they are represented here. *)
Definition timedelta := Z.

Definition timedelta_milliseconds (ms : Z) : timedelta := ms * 1000.

Definition total_microseconds (d : datetime) : Z :=
  ((toordinal d * 86400 + hour d * 3600 + minute d * 60 + second d) * 1000000)
  + microsecond d.

(** [a - b] on two datetimes. *)
Definition datetime_sub (a b : datetime) : timedelta :=
  total_microseconds a - total_microseconds b.

(** Zero-padded decimal fields of [strftime]. *)
Definition digit (n : Z) : ascii := ascii_of_nat (48 + Z.to_nat (n mod 10)).

Fixpoint zero_pad (width : nat) (n : Z) (acc : string) : string :=
  match width with
  | O => acc
  | S k => zero_pad k (n / 10) (String (digit n) acc)
  end.

(** [strftime('%Y-%m-%d_%H-%M-%S')] *)
Definition strftime_Ymd_HMS (d : datetime) : string :=
  zero_pad 4 (year d) ("-" +:+ zero_pad 2 (month d) ("-" +:+ zero_pad 2 (day d)
    ("_" +:+ zero_pad 2 (hour d) ("-" +:+ zero_pad 2 (minute d)
      ("-" +:+ zero_pad 2 (second d) ""))))).

(** [strftime('%H:%M:%S.%f')] *)
Definition strftime_HMSf (d : datetime) : string :=
  zero_pad 2 (hour d) (":" +:+ zero_pad 2 (minute d) (":" +:+ zero_pad 2 (second d)
    ("." +:+ zero_pad 6 (microsecond d) ""))).

(** The slice [s[:-3]]. *)
Definition drop_last3 (s : string) : string :=
  substring 0 (String.length s - 3) s.

(** [str.replace(' ', '-')] *)
Fixpoint replace_space_dash (s : string) : string :=
  match s with
  | EmptyString => EmptyString
  | String c tl =>
      String (if Ascii.eqb c " "%char then "-"%char else c) (replace_space_dash tl)
  end.

(** ** Packets delivered by the driver *)

(** Modelled from the spec: the driver package ([driver.protocol]) that
    declares [Command], [HIDPacket] and the measurement payload is not among
    the sources.  Only the [DATA] tag carries a measurement; the payload
    holds voltage and current as floats and the accumulated fields that the
    script passes through unmodified. *)
Inductive Command := DAT_RECV | CMD_OTHER (tag : Z).

#[global] Instance Command_eq_dec : EqDecision Command.
Proof. solve_decision. Defined.

Record MeterData := {
  voltage : float; current : float;
  ah : float; wh : float;
  recmA : Z; recTime : Z; recGrp : Z; runTime : Z;
  offHour : Z; offPer : Z; reserved : Z
}.

Record HIDPayload := { command : Command; data : MeterData }.
Record HIDPacket := { payload : HIDPayload }.

(** An exception value: [type(e).__name__] and [str(e)]. *)
Record exn := { exn_type_name : string; exn_str : string }.

(** ** The rolling plot window ([data_source]) *)

Module CDS.

(** The five columns of the [ColumnDataSource]. *)
Record t := {
  DateTime : list datetime;
  DateTimeStr : list string;
  voltage : list float;
  current : list float;
  power : list float
}.

Definition empty : t :=
  {| DateTime := []; DateTimeStr := []; voltage := []; current := []; power := [] |}.

End CDS.

(** Maximum amount of X-axis data-points before discarding old data. *)
Definition MAX_X_POINTS : Z := 6000.

(** Evicts from the front until the length no longer exceeds [cap]. *)
Fixpoint evict_front {A : Type} (cap : Z) (l : list A) : list A :=
  match l with
  | [] => []
  | _ :: tl => if cap <? Z.of_nat (length l) then evict_front cap tl else l
  end.

(** Modelled from the spec: [ColumnDataSource.stream] belongs to the Bokeh
    library, which is not among the sources.  Per the spec's append
    operation, the new values are pushed to the back of every column and,
    when the resulting length exceeds the rollover, the oldest ones are
    evicted from the front until the length equals it. *)
Definition stream (new_data : CDS.t) (rollover : Z) (s : CDS.t) : CDS.t :=
  {| CDS.DateTime    := evict_front rollover (CDS.DateTime s ++ CDS.DateTime new_data);
     CDS.DateTimeStr := evict_front rollover (CDS.DateTimeStr s ++ CDS.DateTimeStr new_data);
     CDS.voltage     := evict_front rollover (CDS.voltage s ++ CDS.voltage new_data);
     CDS.current     := evict_front rollover (CDS.current s ++ CDS.current new_data);
     CDS.power       := evict_front rollover (CDS.power s ++ CDS.power new_data) |}.

(** [update]'s arguments: one plotted point. *)
Record point := {
  pt_datetime : datetime; pt_datetimestr : string;
  pt_voltage : float; pt_current : float; pt_power : float
}.

(** The columns holding the given points, oldest first. *)
Definition columns_of (pts : list point) : CDS.t :=
  {| CDS.DateTime := map pt_datetime pts;
     CDS.DateTimeStr := map pt_datetimestr pts;
     CDS.voltage := map pt_voltage pts;
     CDS.current := map pt_current pts;
     CDS.power := map pt_power pts |}.

(** The last [k] elements of a list, in their order. *)
Definition lastn {A : Type} (k : nat) (l : list A) : list A :=
  drop (length l - k)%nat l.

(** ** Widgets, deferred callbacks, the meter and the CSV sink *)

(** The widgets whose [disabled] property the script reads or writes. *)
Inductive widget :=
| device_select | open_conn_button | close_conn_button | invert_sign_switch
| title_input | log_period_input | start_log_button | stop_log_button
| plot_period_input | clear_plot_button.

#[global] Instance widget_eq_dec : EqDecision widget.
Proof. solve_decision. Defined.

(** The text of [measurement_label]: the blank block it starts with, or the
    block that [on_packet] renders.  The rendered block is kept as the values
    its f-string interpolates (the payload, the post-sign current, the power
    and the time string), not as the HTML text. *)
Inductive label_text :=
| blank_lines
| last_measurements (d : MeterData) (cur pow : float) (datetime_string : string).

(** Callables handed to [doc.add_next_tick_callback].  [partial] and the
    lambdas over a handler's own locals carry their values;
    [status_label_update_error_string] is the lambda of [main_method], which
    reads that function's variable [error_string] when it is called. *)
Inductive task :=
| call_update (p : point)
| measurement_label_update (text : label_text)
| status_label_update (text : string)
| status_label_update_error_string
| widget_update_disabled (x : widget) (b : bool)
| new_title_update (text : string).

(** One value written by [csv.writer.writerow], and a row of them. *)
Inductive cell :=
| cell_datetime (d : datetime)
| cell_float (f : float)
| cell_int (z : Z).

Definition row := list cell.

(** Modelled from the spec: the driver class [USBMeter] is not among the
    sources.  The handle records the device it was built for, whether the
    two callbacks are registered, and whether it is connected and reading. *)
Record USBMeter := {
  device : string;
  recv_callback : bool; error_callback : bool;
  connected : bool; reading : bool
}.

(** What happened inside the [try] block of [main_method]: the constructor
    (or the [KnownDevice] lookup) raised, [connect] raised, or all four
    statements went through. *)
Inductive connect_outcome :=
| raised_in_constructor (e : exn)
| raised_in_connect (e : exn)
| connect_ok.

(** State-machine variable *)
Inductive state := STOPPED | INITIALIZING | RUNNING | STOPPING.

#[global] Instance state_eq_dec : EqDecision state.
Proof. solve_decision. Defined.

(** ** The program state *)

Record world := {
  (* module-level variables *)
  plot_title : string;
  logging : bool;
  log_period_ms : Z;
  csv_file : string;
  plot_period_ms : Z;
  meter : option USBMeter;
  last_meas_time : option datetime;
  last_plot_time : option datetime;
  last_log_time : option datetime;
  invert_current : bool;
  selected_device : string;
  main_state : state;
  (* local variable of main_method, captured by its status lambda *)
  error_string : string;
  (* widget properties *)
  disabled : widget -> bool;
  status_label : string;
  measurement_label : label_text;
  new_title : string;
  data_source : CDS.t;
  (* the document's pending next-tick callbacks, oldest first *)
  next_tick_callbacks : list task;
  (* CSV files by name, each a list of rows, and what was printed *)
  files : gmap string (list row);
  stdout : list string
}.

Definition set_plot_title (v : string) (w : world) : world :=
  {| plot_title := v; logging := logging w; log_period_ms := log_period_ms w;
     csv_file := csv_file w; plot_period_ms := plot_period_ms w; meter := meter w;
     last_meas_time := last_meas_time w; last_plot_time := last_plot_time w;
     last_log_time := last_log_time w; invert_current := invert_current w;
     selected_device := selected_device w; main_state := main_state w;
     error_string := error_string w; disabled := disabled w; status_label := status_label w;
     measurement_label := measurement_label w; new_title := new_title w;
     data_source := data_source w; next_tick_callbacks := next_tick_callbacks w;
     files := files w; stdout := stdout w |}.

Definition set_logging (v : bool) (w : world) : world :=
  {| plot_title := plot_title w; logging := v; log_period_ms := log_period_ms w;
     csv_file := csv_file w; plot_period_ms := plot_period_ms w; meter := meter w;
     last_meas_time := last_meas_time w; last_plot_time := last_plot_time w;
     last_log_time := last_log_time w; invert_current := invert_current w;
     selected_device := selected_device w; main_state := main_state w;
     error_string := error_string w; disabled := disabled w; status_label := status_label w;
     measurement_label := measurement_label w; new_title := new_title w;
     data_source := data_source w; next_tick_callbacks := next_tick_callbacks w;
     files := files w; stdout := stdout w |}.

Definition set_log_period_ms (v : Z) (w : world) : world :=
  {| plot_title := plot_title w; logging := logging w; log_period_ms := v;
     csv_file := csv_file w; plot_period_ms := plot_period_ms w; meter := meter w;
     last_meas_time := last_meas_time w; last_plot_time := last_plot_time w;
     last_log_time := last_log_time w; invert_current := invert_current w;
     selected_device := selected_device w; main_state := main_state w;
     error_string := error_string w; disabled := disabled w; status_label := status_label w;
     measurement_label := measurement_label w; new_title := new_title w;
     data_source := data_source w; next_tick_callbacks := next_tick_callbacks w;
     files := files w; stdout := stdout w |}.

Definition set_csv_file (v : string) (w : world) : world :=
  {| plot_title := plot_title w; logging := logging w; log_period_ms := log_period_ms w;
     csv_file := v; plot_period_ms := plot_period_ms w; meter := meter w;
     last_meas_time := last_meas_time w; last_plot_time := last_plot_time w;
     last_log_time := last_log_time w; invert_current := invert_current w;
     selected_device := selected_device w; main_state := main_state w;
     error_string := error_string w; disabled := disabled w; status_label := status_label w;
     measurement_label := measurement_label w; new_title := new_title w;
     data_source := data_source w; next_tick_callbacks := next_tick_callbacks w;
     files := files w; stdout := stdout w |}.

Definition set_plot_period_ms (v : Z) (w : world) : world :=
  {| plot_title := plot_title w; logging := logging w; log_period_ms := log_period_ms w;
     csv_file := csv_file w; plot_period_ms := v; meter := meter w;
     last_meas_time := last_meas_time w; last_plot_time := last_plot_time w;
     last_log_time := last_log_time w; invert_current := invert_current w;
     selected_device := selected_device w; main_state := main_state w;
     error_string := error_string w; disabled := disabled w; status_label := status_label w;
     measurement_label := measurement_label w; new_title := new_title w;
     data_source := data_source w; next_tick_callbacks := next_tick_callbacks w;
     files := files w; stdout := stdout w |}.

Definition set_meter (v : option USBMeter) (w : world) : world :=
  {| plot_title := plot_title w; logging := logging w; log_period_ms := log_period_ms w;
     csv_file := csv_file w; plot_period_ms := plot_period_ms w; meter := v;
     last_meas_time := last_meas_time w; last_plot_time := last_plot_time w;
     last_log_time := last_log_time w; invert_current := invert_current w;
     selected_device := selected_device w; main_state := main_state w;
     error_string := error_string w; disabled := disabled w; status_label := status_label w;
     measurement_label := measurement_label w; new_title := new_title w;
     data_source := data_source w; next_tick_callbacks := next_tick_callbacks w;
     files := files w; stdout := stdout w |}.

Definition set_last_meas_time (v : option datetime) (w : world) : world :=
  {| plot_title := plot_title w; logging := logging w; log_period_ms := log_period_ms w;
     csv_file := csv_file w; plot_period_ms := plot_period_ms w; meter := meter w;
     last_meas_time := v; last_plot_time := last_plot_time w; last_log_time := last_log_time w;
     invert_current := invert_current w; selected_device := selected_device w;
     main_state := main_state w; error_string := error_string w; disabled := disabled w;
     status_label := status_label w; measurement_label := measurement_label w;
     new_title := new_title w; data_source := data_source w;
     next_tick_callbacks := next_tick_callbacks w; files := files w; stdout := stdout w |}.

Definition set_last_plot_time (v : option datetime) (w : world) : world :=
  {| plot_title := plot_title w; logging := logging w; log_period_ms := log_period_ms w;
     csv_file := csv_file w; plot_period_ms := plot_period_ms w; meter := meter w;
     last_meas_time := last_meas_time w; last_plot_time := v; last_log_time := last_log_time w;
     invert_current := invert_current w; selected_device := selected_device w;
     main_state := main_state w; error_string := error_string w; disabled := disabled w;
     status_label := status_label w; measurement_label := measurement_label w;
     new_title := new_title w; data_source := data_source w;
     next_tick_callbacks := next_tick_callbacks w; files := files w; stdout := stdout w |}.

Definition set_last_log_time (v : option datetime) (w : world) : world :=
  {| plot_title := plot_title w; logging := logging w; log_period_ms := log_period_ms w;
     csv_file := csv_file w; plot_period_ms := plot_period_ms w; meter := meter w;
     last_meas_time := last_meas_time w; last_plot_time := last_plot_time w;
     last_log_time := v; invert_current := invert_current w;
     selected_device := selected_device w; main_state := main_state w;
     error_string := error_string w; disabled := disabled w; status_label := status_label w;
     measurement_label := measurement_label w; new_title := new_title w;
     data_source := data_source w; next_tick_callbacks := next_tick_callbacks w;
     files := files w; stdout := stdout w |}.

Definition set_invert_current (v : bool) (w : world) : world :=
  {| plot_title := plot_title w; logging := logging w; log_period_ms := log_period_ms w;
     csv_file := csv_file w; plot_period_ms := plot_period_ms w; meter := meter w;
     last_meas_time := last_meas_time w; last_plot_time := last_plot_time w;
     last_log_time := last_log_time w; invert_current := v;
     selected_device := selected_device w; main_state := main_state w;
     error_string := error_string w; disabled := disabled w; status_label := status_label w;
     measurement_label := measurement_label w; new_title := new_title w;
     data_source := data_source w; next_tick_callbacks := next_tick_callbacks w;
     files := files w; stdout := stdout w |}.

Definition set_selected_device (v : string) (w : world) : world :=
  {| plot_title := plot_title w; logging := logging w; log_period_ms := log_period_ms w;
     csv_file := csv_file w; plot_period_ms := plot_period_ms w; meter := meter w;
     last_meas_time := last_meas_time w; last_plot_time := last_plot_time w;
     last_log_time := last_log_time w; invert_current := invert_current w;
     selected_device := v; main_state := main_state w; error_string := error_string w;
     disabled := disabled w; status_label := status_label w;
     measurement_label := measurement_label w; new_title := new_title w;
     data_source := data_source w; next_tick_callbacks := next_tick_callbacks w;
     files := files w; stdout := stdout w |}.

Definition set_main_state (v : state) (w : world) : world :=
  {| plot_title := plot_title w; logging := logging w; log_period_ms := log_period_ms w;
     csv_file := csv_file w; plot_period_ms := plot_period_ms w; meter := meter w;
     last_meas_time := last_meas_time w; last_plot_time := last_plot_time w;
     last_log_time := last_log_time w; invert_current := invert_current w;
     selected_device := selected_device w; main_state := v; error_string := error_string w;
     disabled := disabled w; status_label := status_label w;
     measurement_label := measurement_label w; new_title := new_title w;
     data_source := data_source w; next_tick_callbacks := next_tick_callbacks w;
     files := files w; stdout := stdout w |}.

Definition set_error_string (v : string) (w : world) : world :=
  {| plot_title := plot_title w; logging := logging w; log_period_ms := log_period_ms w;
     csv_file := csv_file w; plot_period_ms := plot_period_ms w; meter := meter w;
     last_meas_time := last_meas_time w; last_plot_time := last_plot_time w;
     last_log_time := last_log_time w; invert_current := invert_current w;
     selected_device := selected_device w; main_state := main_state w; error_string := v;
     disabled := disabled w; status_label := status_label w;
     measurement_label := measurement_label w; new_title := new_title w;
     data_source := data_source w; next_tick_callbacks := next_tick_callbacks w;
     files := files w; stdout := stdout w |}.

Definition set_disabled (v : widget -> bool) (w : world) : world :=
  {| plot_title := plot_title w; logging := logging w; log_period_ms := log_period_ms w;
     csv_file := csv_file w; plot_period_ms := plot_period_ms w; meter := meter w;
     last_meas_time := last_meas_time w; last_plot_time := last_plot_time w;
     last_log_time := last_log_time w; invert_current := invert_current w;
     selected_device := selected_device w; main_state := main_state w;
     error_string := error_string w; disabled := v; status_label := status_label w;
     measurement_label := measurement_label w; new_title := new_title w;
     data_source := data_source w; next_tick_callbacks := next_tick_callbacks w;
     files := files w; stdout := stdout w |}.

Definition set_status_label (v : string) (w : world) : world :=
  {| plot_title := plot_title w; logging := logging w; log_period_ms := log_period_ms w;
     csv_file := csv_file w; plot_period_ms := plot_period_ms w; meter := meter w;
     last_meas_time := last_meas_time w; last_plot_time := last_plot_time w;
     last_log_time := last_log_time w; invert_current := invert_current w;
     selected_device := selected_device w; main_state := main_state w;
     error_string := error_string w; disabled := disabled w; status_label := v;
     measurement_label := measurement_label w; new_title := new_title w;
     data_source := data_source w; next_tick_callbacks := next_tick_callbacks w;
     files := files w; stdout := stdout w |}.

Definition set_measurement_label (v : label_text) (w : world) : world :=
  {| plot_title := plot_title w; logging := logging w; log_period_ms := log_period_ms w;
     csv_file := csv_file w; plot_period_ms := plot_period_ms w; meter := meter w;
     last_meas_time := last_meas_time w; last_plot_time := last_plot_time w;
     last_log_time := last_log_time w; invert_current := invert_current w;
     selected_device := selected_device w; main_state := main_state w;
     error_string := error_string w; disabled := disabled w; status_label := status_label w;
     measurement_label := v; new_title := new_title w; data_source := data_source w;
     next_tick_callbacks := next_tick_callbacks w; files := files w; stdout := stdout w |}.

Definition set_new_title (v : string) (w : world) : world :=
  {| plot_title := plot_title w; logging := logging w; log_period_ms := log_period_ms w;
     csv_file := csv_file w; plot_period_ms := plot_period_ms w; meter := meter w;
     last_meas_time := last_meas_time w; last_plot_time := last_plot_time w;
     last_log_time := last_log_time w; invert_current := invert_current w;
     selected_device := selected_device w; main_state := main_state w;
     error_string := error_string w; disabled := disabled w; status_label := status_label w;
     measurement_label := measurement_label w; new_title := v; data_source := data_source w;
     next_tick_callbacks := next_tick_callbacks w; files := files w; stdout := stdout w |}.

Definition set_data_source (v : CDS.t) (w : world) : world :=
  {| plot_title := plot_title w; logging := logging w; log_period_ms := log_period_ms w;
     csv_file := csv_file w; plot_period_ms := plot_period_ms w; meter := meter w;
     last_meas_time := last_meas_time w; last_plot_time := last_plot_time w;
     last_log_time := last_log_time w; invert_current := invert_current w;
     selected_device := selected_device w; main_state := main_state w;
     error_string := error_string w; disabled := disabled w; status_label := status_label w;
     measurement_label := measurement_label w; new_title := new_title w; data_source := v;
     next_tick_callbacks := next_tick_callbacks w; files := files w; stdout := stdout w |}.

Definition set_next_tick_callbacks (v : list task) (w : world) : world :=
  {| plot_title := plot_title w; logging := logging w; log_period_ms := log_period_ms w;
     csv_file := csv_file w; plot_period_ms := plot_period_ms w; meter := meter w;
     last_meas_time := last_meas_time w; last_plot_time := last_plot_time w;
     last_log_time := last_log_time w; invert_current := invert_current w;
     selected_device := selected_device w; main_state := main_state w;
     error_string := error_string w; disabled := disabled w; status_label := status_label w;
     measurement_label := measurement_label w; new_title := new_title w;
     data_source := data_source w; next_tick_callbacks := v; files := files w;
     stdout := stdout w |}.

Definition set_files (v : gmap string (list row)) (w : world) : world :=
  {| plot_title := plot_title w; logging := logging w; log_period_ms := log_period_ms w;
     csv_file := csv_file w; plot_period_ms := plot_period_ms w; meter := meter w;
     last_meas_time := last_meas_time w; last_plot_time := last_plot_time w;
     last_log_time := last_log_time w; invert_current := invert_current w;
     selected_device := selected_device w; main_state := main_state w;
     error_string := error_string w; disabled := disabled w; status_label := status_label w;
     measurement_label := measurement_label w; new_title := new_title w;
     data_source := data_source w; next_tick_callbacks := next_tick_callbacks w; files := v;
     stdout := stdout w |}.

Definition set_stdout (v : list string) (w : world) : world :=
  {| plot_title := plot_title w; logging := logging w; log_period_ms := log_period_ms w;
     csv_file := csv_file w; plot_period_ms := plot_period_ms w; meter := meter w;
     last_meas_time := last_meas_time w; last_plot_time := last_plot_time w;
     last_log_time := last_log_time w; invert_current := invert_current w;
     selected_device := selected_device w; main_state := main_state w;
     error_string := error_string w; disabled := disabled w; status_label := status_label w;
     measurement_label := measurement_label w; new_title := new_title w;
     data_source := data_source w; next_tick_callbacks := next_tick_callbacks w;
     files := files w; stdout := v |}.

(** The state right after the module body has run. *)
Definition initial_world : world :=
  {| plot_title := "Witrn"; logging := false; log_period_ms := 250; csv_file := "";
     plot_period_ms := 0; meter := None;
     last_meas_time := None; last_plot_time := None; last_log_time := None;
     invert_current := true; selected_device := "C4"; main_state := STOPPED;
     error_string := "";
     disabled := fun x =>
       match x with close_conn_button | stop_log_button => true | _ => false end;
     status_label := ""; measurement_label := blank_lines; new_title := "Witrn";
     data_source := CDS.empty;
     next_tick_callbacks := []; files := ∅; stdout := [] |}.

(** ** Exceptions *)

(** The outcome of a routine that can raise. *)
Inductive result (A : Type) :=
| Ok (a : A)
| Raise (e : exn).
Arguments Ok {A} a.
Arguments Raise {A} e.

#[global] Instance result_ret : MRet result := @Ok.
#[global] Instance result_bind : MBind result :=
  fun A B f m => match m with Ok a => f a | Raise e => Raise e end.

Definition TypeError_sub_None : exn :=
  {| exn_type_name := "TypeError";
     exn_str := "unsupported operand type(s) for -: 'datetime.datetime' and 'NoneType'" |}.

Definition AttributeError_None : exn :=
  {| exn_type_name := "AttributeError";
     exn_str := "'NoneType' object has no attribute" |}.

(** [datetime_now - last] where [last] is a global that may still be [None]. *)
Definition sub_datetime (datetime_now : datetime) (last : option datetime)
  : result timedelta :=
  match last with
  | Some t => Ok (datetime_sub datetime_now t)
  | None => Raise TypeError_sub_None
  end.

(** ** Primitive effects *)

Definition add_next_tick_callback (t : task) (w : world) : world :=
  set_next_tick_callbacks (next_tick_callbacks w ++ [t]) w.

Definition widget_update (x : widget) (b : bool) (w : world) : world :=
  set_disabled (<[x := b]> (disabled w)) w.

Definition print (s : string) (w : world) : world :=
  set_stdout (stdout w ++ [s]) w.

(** [open(name, 'a')] followed by one [writerow]: the file is created when
    absent and the row lands after the rows already there.  The sink is taken
    to be append-safe: failures of the file system are outside the model. *)
Definition writerow (name : string) (r : row) (w : world) : world :=
  set_files (<[name := default [] (files w !! name) ++ [r]]> (files w)) w.

(** ** The routines of the script *)

Definition on_clear_plot_button (w : world) : world :=
  set_data_source CDS.empty w.

Definition update (p : point) (w : world) : world :=
  set_data_source (stream (columns_of [p]) MAX_X_POINTS (data_source w)) w.

(** The row written for a log-gated sample. *)
Definition log_row (datetime_now : datetime) (d : MeterData) (cur pow : float) : row :=
  [ cell_datetime datetime_now;
    cell_float (voltage d);
    cell_float cur;
    cell_float pow;
    cell_float (ah d); cell_float (wh d); cell_int (recmA d); cell_int (recTime d);
    cell_int (recGrp d + 1); cell_int (runTime d) ].

Definition on_packet (packet : HIDPacket) (datetime_now : datetime) (w : world)
  : result world :=
  if decide (main_state w ≠ RUNNING) then Ok w else
  if decide (command (payload packet) ≠ DAT_RECV) then Ok w else
  let datetime_string := drop_last3 (strftime_HMSf datetime_now) in
  let w := match last_meas_time w with
           | None => set_last_meas_time (Some datetime_now) w | Some _ => w end in
  let w := match last_log_time w with
           | None => set_last_log_time (Some datetime_now) w | Some _ => w end in
  let w := match last_plot_time w with
           | None => set_last_plot_time (Some datetime_now) w | Some _ => w end in
  let d := data (payload packet) in
  let cur := if invert_current w then PrimFloat.opp (current d) else current d in
  let pow := PrimFloat.mul (voltage d) cur in
  w ← (if logging w then
         elapsed ← sub_datetime datetime_now (last_log_time w);
         if timedelta_milliseconds (log_period_ms w) <? elapsed then
           Ok (set_last_log_time (Some datetime_now)
                 (writerow (csv_file w) (log_row datetime_now d cur pow) w))
         else Ok w
       else Ok w);
  w ← (elapsed ← sub_datetime datetime_now (last_plot_time w);
       if timedelta_milliseconds (plot_period_ms w) <? elapsed then
         Ok (set_last_plot_time (Some datetime_now)
               (add_next_tick_callback
                  (call_update {| pt_datetime := datetime_now;
                                  pt_datetimestr := datetime_string;
                                  pt_voltage := voltage d;
                                  pt_current := cur;
                                  pt_power := pow |}) w))
       else Ok w);
  elapsed ← sub_datetime datetime_now (last_meas_time w);
  if timedelta_milliseconds (log_period_ms w) <? elapsed then
    Ok (set_last_meas_time (Some datetime_now)
          (add_next_tick_callback
             (measurement_label_update (last_measurements d cur pow datetime_string)) w))
  else Ok w.

Definition on_error (error : exn) (w : world) : world :=
  let w := print ("Error: " +:+ exn_str error) w in
  let w := add_next_tick_callback (status_label_update (exn_str error)) w in
  set_main_state STOPPED w.

(** The [except] branch of [main_method]'s INITIALIZING case. *)
Definition connect_failed (e : exn) (w : world) : world :=
  let w := set_error_string (exn_type_name e +:+ ": " +:+ exn_str e) w in
  let w := print ("Failed to connect: " +:+ error_string w) w in
  let w := add_next_tick_callback status_label_update_error_string w in
  let w := add_next_tick_callback (widget_update_disabled device_select false) w in
  let w := add_next_tick_callback (widget_update_disabled open_conn_button false) w in
  let w := add_next_tick_callback (widget_update_disabled invert_sign_switch false) w in
  set_main_state STOPPED w.

(** The meter object once the constructor and the two registrations ran. *)
Definition new_meter (w : world) : USBMeter :=
  {| device := selected_device w; recv_callback := true; error_callback := true;
     connected := false; reading := false |}.

Definition set_connected (b : bool) (m : USBMeter) : USBMeter :=
  {| device := device m; recv_callback := recv_callback m;
     error_callback := error_callback m; connected := b; reading := reading m |}.

Definition set_reading (b : bool) (m : USBMeter) : USBMeter :=
  {| device := device m; recv_callback := recv_callback m;
     error_callback := error_callback m; connected := connected m; reading := b |}.

(** A method call on the global [meter], which raises when it is [None]. *)
Definition with_meter (f : USBMeter -> USBMeter) (w : world) : result world :=
  match meter w with
  | Some m => Ok (set_meter (Some (f m)) w)
  | None => Raise AttributeError_None
  end.

(** One turn of the [while True] loop of [main_method]; [outcome] says how
    the [try] block went, should this turn run it.  The sleeps change
    nothing. *)
Definition main_method (outcome : connect_outcome) (w : world) : result world :=
  match main_state w with
  | STOPPED => Ok w
  | INITIALIZING =>
      match outcome with
      | raised_in_constructor e => Ok (connect_failed e w)
      | raised_in_connect e => Ok (connect_failed e (set_meter (Some (new_meter w)) w))
      | connect_ok =>
          let w := set_meter (Some (set_connected true (new_meter w))) w in
          let w := if decide (status_label w ≠ "") then
                     add_next_tick_callback (status_label_update "") w
                   else w in
          let w := add_next_tick_callback (widget_update_disabled close_conn_button false) w in
          w ← with_meter (set_reading true) w;
          Ok (set_main_state RUNNING w)
      end
  | RUNNING => Ok w
  | STOPPING =>
      w ← with_meter (set_reading false) w;
      w ← with_meter (set_connected false) w;
      let w := add_next_tick_callback (widget_update_disabled device_select false) w in
      let w := add_next_tick_callback (widget_update_disabled open_conn_button false) w in
      let w := add_next_tick_callback (widget_update_disabled invert_sign_switch false) w in
      Ok (set_main_state STOPPED w)
  end.

Definition on_device_select (new : string) (w : world) : world :=
  set_selected_device new w.

Definition on_open_conn_button (w : world) : world :=
  let w := widget_update device_select true w in
  let w := widget_update open_conn_button true w in
  let w := widget_update invert_sign_switch true w in
  let w := on_clear_plot_button w in
  set_main_state INITIALIZING w.

Definition on_close_conn_button (w : world) : world :=
  let w := widget_update close_conn_button true w in
  set_main_state STOPPING w.

Definition on_invert_sign_switch (new : bool) (w : world) : world :=
  set_invert_current new w.

Definition on_title_input (new : string) (w : world) : world :=
  let w := set_plot_title new w in
  add_next_tick_callback (new_title_update new) w.

Definition on_log_period_input (new : Z) (w : world) : world :=
  set_log_period_ms new w.

(** The file name chosen when logging starts. *)
Definition csv_file_name (datetime_now : datetime) (title : string) : string :=
  strftime_Ymd_HMS datetime_now +:+ "_" +:+ replace_space_dash title +:+ ".csv".

Definition on_start_log_button (datetime_now : datetime) (w : world) : world :=
  let w := widget_update title_input true w in
  let w := widget_update log_period_input true w in
  let w := widget_update start_log_button true w in
  let w := widget_update stop_log_button false w in
  let w := widget_update clear_plot_button true w in
  let w := set_csv_file (csv_file_name datetime_now (plot_title w)) w in
  let w := on_clear_plot_button w in
  set_logging true w.

Definition on_stop_log_button (w : world) : world :=
  let w := widget_update title_input false w in
  let w := widget_update log_period_input false w in
  let w := widget_update start_log_button false w in
  let w := widget_update stop_log_button true w in
  let w := widget_update clear_plot_button false w in
  set_logging false w.

Definition on_plot_period_input (new : Z) (w : world) : world :=
  set_plot_period_ms new w.

(** ** The document's event loop *)

(** Calling one deferred callable. *)
Definition call (t : task) (w : world) : world :=
  match t with
  | call_update p => update p w
  | measurement_label_update text => set_measurement_label text w
  | status_label_update text => set_status_label text w
  | status_label_update_error_string => set_status_label (error_string w) w
  | widget_update_disabled x b => widget_update x b w
  | new_title_update text => set_new_title text w
  end.

(** The next tick runs the oldest pending callback. *)
Definition next_tick (w : world) : world :=
  match next_tick_callbacks w with
  | [] => w
  | t :: rest => call t (set_next_tick_callbacks rest w)
  end.

(** Runs every pending callback, in submission order. *)
Definition run_callbacks (w : world) : world :=
  fold_left (fun w t => call t w) (next_tick_callbacks w) (set_next_tick_callbacks [] w).

(** [n] turns of the event loop. *)
Definition ticks (n : nat) (w : world) : world := Nat.iter n next_tick w.

(** ** Runs of the packet handler *)

(** Hands the same packet to [on_packet] at each of the given instants. *)
Fixpoint feed (packet : HIDPacket) (instants : list datetime) (w : world)
  : result world :=
  match instants with
  | [] => Ok w
  | t :: rest => w' ← on_packet packet t w; feed packet rest w'
  end.

(** Streams the given points into the plot, oldest first. *)
Definition plot_all (pts : list point) (w : world) : world :=
  fold_left (fun w p => update p w) pts w.

(** ** The rate gate, as the script decides it and as the spec words it *)

(** The script's decision: an unset timestamp was replaced by
    [datetime_now] just before the comparison. *)
Definition gate_open (period_ms : Z) (last : option datetime) (datetime_now : datetime)
  : bool :=
  timedelta_milliseconds period_ms <? datetime_sub datetime_now (default datetime_now last).

(** The spec's [should_fire]: true when [last_fire] is unset or more than
    the period has elapsed since it. *)
Definition should_fire (period_ms : Z) (last_fire : option datetime)
    (datetime_now : datetime) : bool :=
  match last_fire with
  | None => true
  | Some t => timedelta_milliseconds period_ms <? datetime_sub datetime_now t
  end.

(** The timestamp a gate holds after a call. *)
Definition gate_stamp (fired : bool) (last : option datetime) (datetime_now : datetime)
  : option datetime :=
  if fired then Some datetime_now else Some (default datetime_now last).

(** The post-sign current and the power of a packet under a sign policy. *)
Definition signed_current (invert : bool) (d : MeterData) : float :=
  if invert then PrimFloat.opp (current d) else current d.

Definition signed_power (invert : bool) (d : MeterData) : float :=
  PrimFloat.mul (voltage d) (signed_current invert d).

(** The point [on_packet] submits for plotting. *)
Definition plot_point (invert : bool) (d : MeterData) (datetime_now : datetime) : point :=
  {| pt_datetime := datetime_now;
     pt_datetimestr := drop_last3 (strftime_HMSf datetime_now);
     pt_voltage := voltage d;
     pt_current := signed_current invert d;
     pt_power := signed_power invert d |}.

(** Which pending callbacks plot a point, and which set a widget enabled. *)
Definition is_plot (t : task) : bool :=
  match t with call_update _ => true | _ => false end.

Definition is_status (t : task) : bool :=
  match t with measurement_label_update _ => true | _ => false end.

Definition enables (x : widget) (t : task) : bool :=
  match t with
  | widget_update_disabled y false => bool_decide (x = y)
  | _ => false
  end.

(** The instants at which pending plot callbacks were submitted. *)
Definition plotted_at (q : list task) : list datetime :=
  omap (fun t => match t with call_update p => Some (pt_datetime p) | _ => None end) q.

(** ** Sample inputs *)

(** [ms] milliseconds after noon on the day the script was started. *)
Definition noon_plus (ms : Z) : datetime :=
  {| year := 2023; month := 11; day := 25; hour := 12; minute := 0;
     second := ms / 1000; microsecond := (ms mod 1000) * 1000 |}.

Definition sample_data : MeterData :=
  {| voltage := 5; current := 2; ah := 0.5; wh := 2.5;
     recmA := 50; recTime := 7; recGrp := 0; runTime := 60;
     offHour := 0; offPer := 0; reserved := 0 |}%float.

Definition data_packet : HIDPacket :=
  {| payload := {| command := DAT_RECV; data := sample_data |} |}.

Definition other_packet : HIDPacket :=
  {| payload := {| command := CMD_OTHER 1; data := sample_data |} |}.

(** The state while a connection is up, with a 250 ms plot period. *)
Definition running_world : world :=
  set_plot_period_ms 250 (set_main_state RUNNING initial_world).

Definition connect_error : exn :=
  {| exn_type_name := "OSError"; exn_str := "open failed" |}.

(** ** What one measurement does, in closed form *)

(** The state [on_packet] leaves behind when it is handed a measurement
    while RUNNING, written out gate by gate. *)
Definition packet_effect (d : MeterData) (datetime_now : datetime) (w : world) : world :=
  let cur := signed_current (invert_current w) d in
  let pow := signed_power (invert_current w) d in
  let log_fired := logging w && gate_open (log_period_ms w) (last_log_time w) datetime_now in
  let plot_fired := gate_open (plot_period_ms w) (last_plot_time w) datetime_now in
  let meas_fired := gate_open (log_period_ms w) (last_meas_time w) datetime_now in
  set_last_meas_time (gate_stamp meas_fired (last_meas_time w) datetime_now)
    (set_last_plot_time (gate_stamp plot_fired (last_plot_time w) datetime_now)
      (set_last_log_time (gate_stamp log_fired (last_log_time w) datetime_now)
        (set_next_tick_callbacks
           (next_tick_callbacks w
              ++ (if plot_fired then [call_update (plot_point (invert_current w) d datetime_now)]
                  else [])
              ++ (if meas_fired then
                    [measurement_label_update
                       (last_measurements d cur pow (drop_last3 (strftime_HMSf datetime_now)))]
                  else []))
           (set_files
              (if log_fired then
                 <[csv_file w := default [] (files w !! csv_file w)
                                   ++ [log_row datetime_now d cur pow]]> (files w)
               else files w)
              w)))).

(** The state of [running_world] once a first measurement at noon has set
    the three gate timestamps. *)
Definition stamped_world : world :=
  set_last_meas_time (Some (noon_plus 0))
    (set_last_plot_time (Some (noon_plus 0))
       (set_last_log_time (Some (noon_plus 0)) running_world)).

(** The field ranges Python enforces on a [datetime]. *)
Definition valid_datetime (d : datetime) : Prop :=
  1 <= year d <= 9999 /\ 1 <= month d <= 12 /\ 1 <= day d <= 31
  /\ 0 <= hour d < 24 /\ 0 <= minute d < 60 /\ 0 <= second d < 60
  /\ 0 <= microsecond d < 1000000.

(** The callbacks [main_method] submits when the [try] block raised. *)
Definition connect_failed_callbacks : list task :=
  [ status_label_update_error_string;
    widget_update_disabled device_select false;
    widget_update_disabled open_conn_button false;
    widget_update_disabled invert_sign_switch false ].

(** [stamped_world] after logging was started at noon. *)
Definition logging_world : world :=
  on_start_log_button (noon_plus 0) stamped_world.

(** ** Predicates used to state further properties *)

(** The five columns have one length, within the rollover. *)
Definition aligned (s : CDS.t) : Prop :=
  length (CDS.DateTimeStr s) = length (CDS.DateTime s)
  /\ length (CDS.voltage s) = length (CDS.DateTime s)
  /\ length (CDS.current s) = length (CDS.DateTime s)
  /\ length (CDS.power s) = length (CDS.DateTime s)
  /\ Z.of_nat (length (CDS.DateTime s)) <= MAX_X_POINTS.

(** Clock readings that each come strictly after the one before, starting
    after [t]. *)
Fixpoint increasing_from (t : datetime) (ts : list datetime) : Prop :=
  match ts with
  | [] => True
  | u :: rest =>
      total_microseconds t < total_microseconds u /\ increasing_from u rest
  end.

(** Whether a character occurs in a string. *)
Fixpoint has_char (c : ascii) (s : string) : bool :=
  match s with
  | EmptyString => false
  | String x tl => Ascii.eqb x c || has_char c tl
  end.

(** The meter handle of a session on the selected device, by its flags. *)
Definition meter_of (w : world) (is_connected is_reading : bool) : USBMeter :=
  {| device := selected_device w; recv_callback := true; error_callback := true;
     connected := is_connected; reading := is_reading |}.

(** [initial_world] once an open request was handled and is awaiting the
    supervising loop. *)
Definition opening_world : world := on_open_conn_button initial_world.

(** [stamped_world] with a 250 ms plot period, as it is, and a sample that
    opens the plot gate at 300 ms. *)
Definition fired_world : world :=
  packet_effect sample_data (noon_plus 300) stamped_world.

(** A running connection with its meter, after the callbacks were run. *)
Definition connected_world : world :=
  set_meter (Some (meter_of initial_world true true))
    (set_main_state RUNNING (widget_update close_conn_button false opening_world)).

(** The three gate timestamps together. *)
Definition stamps (w : world) : option datetime * option datetime * option datetime :=
  (last_meas_time w, last_plot_time w, last_log_time w).

(** The controls that the connection lifecycle writes. *)
Definition lifecycle_widget (x : widget) : bool :=
  match x with
  | device_select | open_conn_button | close_conn_button | invert_sign_switch => true
  | _ => false
  end.

(** * Properties *)

(** ** The rolling window *)

Section Window.
Context {A : Type}.
Implicit Types (l new : list A) (cap : Z).

Lemma evict_front_drop cap l :
  evict_front cap l = lastn (Z.to_nat cap) l.
Proof.
  unfold lastn. induction l as [|x tl IH]; [done|].
  cbn [evict_front]. destruct (Z.ltb_spec cap (Z.of_nat (length (x :: tl)))) as [Hlt|Hge].
  - rewrite IH. cbn [length] in *.
    replace (S (length tl) - Z.to_nat cap)%nat with (S (length tl - Z.to_nat cap)) by lia.
    done.
  - cbn [length] in *.
    replace (S (length tl) - Z.to_nat cap)%nat with 0%nat by lia. done.
Qed.

Lemma length_lastn k l : length (lastn k l) = Nat.min k (length l).
Proof. unfold lastn. rewrite length_drop. lia. Qed.

(** Trimming early does not change what survives a later trim. *)
Lemma lastn_app_lastn k l new :
  lastn k (lastn k l ++ new) = lastn k (l ++ new).
Proof.
  unfold lastn. rewrite !length_app, length_drop, !drop_app, drop_drop, length_drop.
  destruct (Nat.le_gt_cases (length l) k) as [Hle|Hgt].
  - replace (length l - k)%nat with 0%nat by lia. cbn [Nat.add].
    by rewrite Nat.sub_0_r.
  - f_equal; f_equal; lia.
Qed.

Lemma lastn_min k l : lastn (Nat.min (length l) k) l = lastn k l.
Proof. unfold lastn. f_equal. lia. Qed.

End Window.

Lemma lastn_fmap {A B : Type} (f : A -> B) k (l : list A) :
  lastn k (map f l) = map f (lastn k l).
Proof. unfold lastn. by rewrite length_map, <- skipn_map. Qed.

(** A column of a trimmed window, extended by one value and trimmed again. *)
Lemma evict_front_column {B : Type} (f : point -> B) cap (pts : list point) p :
  evict_front cap (map f (lastn (Z.to_nat cap) pts) ++ [f p])
  = map f (lastn (Z.to_nat cap) (pts ++ [p])).
Proof.
  rewrite evict_front_drop. change [f p] with (map f [p]).
  by rewrite <- map_app, lastn_fmap, lastn_app_lastn.
Qed.

(** One [stream] of a single point on a window that holds the last points
    of [pts] yields the window of [pts] extended by that point. *)
Lemma stream_columns_of cap (pts : list point) (p : point) :
  stream (columns_of [p]) cap (columns_of (lastn (Z.to_nat cap) pts))
  = columns_of (lastn (Z.to_nat cap) (pts ++ [p])).
Proof.
  unfold stream, columns_of.
  cbn [CDS.DateTime CDS.DateTimeStr CDS.voltage CDS.current CDS.power map].
  by rewrite !evict_front_column.
Qed.

Lemma plot_all_snoc pts p w : plot_all (pts ++ [p]) w = update p (plot_all pts w).
Proof. unfold plot_all. by rewrite fold_left_app. Qed.

(** Plotting [pts] on a cleared window leaves the last [MAX_X_POINTS] of them. *)
Lemma plot_all_from_empty (pts : list point) (w : world) :
  data_source w = CDS.empty ->
  data_source (plot_all pts w) = columns_of (lastn (Z.to_nat MAX_X_POINTS) pts).
Proof.
  intros Hw. induction pts as [|p pts IH] using rev_ind; [done|].
  rewrite plot_all_snoc. unfold update at 1. cbn [data_source set_data_source].
  rewrite IH. apply stream_columns_of.
Qed.

(** C2.  After any sequence of N points has been streamed into a cleared
    plot window, the window holds exactly min(N, MAX_X_POINTS) points: the
    most recently streamed ones, in the order in which they were streamed,
    in each of its five columns. *)
Theorem C2_window_keeps_most_recent (pts : list point) (w : world) :
  let kept := Z.to_nat (Z.min (Z.of_nat (length pts)) MAX_X_POINTS) in
  let window := data_source (plot_all pts (on_clear_plot_button w)) in
  window = columns_of (lastn kept pts)
  /\ length (lastn kept pts) = kept
  /\ length (CDS.DateTime window) = kept
  /\ length (CDS.DateTimeStr window) = kept
  /\ length (CDS.voltage window) = kept
  /\ length (CDS.current window) = kept
  /\ length (CDS.power window) = kept.
Proof.
  intros kept window.
  assert (Hk : kept = Nat.min (length pts) (Z.to_nat MAX_X_POINTS)).
  { unfold kept, MAX_X_POINTS. lia. }
  assert (Hwin : window = columns_of (lastn kept pts)).
  { unfold window. rewrite plot_all_from_empty by done. by rewrite Hk, lastn_min. }
  assert (Hlen : length (lastn kept pts) = kept).
  { rewrite length_lastn. lia. }
  rewrite Hwin. unfold columns_of.
  cbn [CDS.DateTime CDS.DateTimeStr CDS.voltage CDS.current CDS.power].
  rewrite !length_map. repeat split; done.
Qed.

(** ** The packet handler *)

#[local] Arguments datetime_sub : simpl never.
#[local] Arguments timedelta_milliseconds : simpl never.
#[local] Arguments drop_last3 : simpl never.
#[local] Arguments strftime_HMSf : simpl never.
#[local] Arguments strftime_Ymd_HMS : simpl never.
#[local] Arguments PrimFloat.mul : simpl never.
#[local] Arguments PrimFloat.opp : simpl never.

(** Packets that are not measurements, and packets that arrive while the
    connection is not RUNNING, leave everything as it was. *)
Lemma on_packet_dropped packet datetime_now w :
  main_state w <> RUNNING \/ command (payload packet) <> DAT_RECV ->
  on_packet packet datetime_now w = Ok w.
Proof.
  intros H. unfold on_packet.
  destruct (decide (main_state w <> RUNNING)) as [|Hs]; [done|].
  destruct (decide (command (payload packet) <> DAT_RECV)) as [|Hc]; [done|].
  destruct H as [H|H]; [by destruct Hs | by destruct Hc].
Qed.

(** Unfolds the setters, the projections and the exception monad, and
    nothing else. *)
Ltac world_simpl :=
  cbv beta iota zeta delta
    [mbind result_bind mret result_ret sub_datetime from_option id andb
     add_next_tick_callback writerow widget_update print
     set_plot_title set_logging set_log_period_ms set_csv_file set_plot_period_ms
     set_meter set_last_meas_time set_last_plot_time set_last_log_time
     set_invert_current set_selected_device set_main_state set_error_string
     set_disabled set_status_label set_measurement_label set_new_title
     set_data_source set_next_tick_callbacks set_files set_stdout
     plot_title logging log_period_ms csv_file plot_period_ms meter last_meas_time
     last_plot_time last_log_time invert_current selected_device main_state
     error_string disabled status_label measurement_label new_title data_source
     next_tick_callbacks files stdout].

(** Case analysis on one period comparison. *)
Ltac gate_case :=
  match goal with
  | |- context [?a <? ?b] => destruct (a <? b)
  end.

(** Unset timestamps are replaced by the current instant before any gate is
    looked at. *)
Lemma on_packet_stamps packet datetime_now w :
  main_state w = RUNNING ->
  command (payload packet) = DAT_RECV ->
  on_packet packet datetime_now w
  = on_packet packet datetime_now
      (set_last_plot_time (Some (default datetime_now (last_plot_time w)))
         (set_last_log_time (Some (default datetime_now (last_log_time w)))
            (set_last_meas_time (Some (default datetime_now (last_meas_time w))) w))).
Proof.
  intros Hs Hc. unfold on_packet.
  destruct w as [? lg ? ? ? ? lm lp ll ? ? ? ? ? ? ? ? ? q ? ?].
  cbn in Hs. subst.
  destruct (decide (command (payload packet) <> DAT_RECV)) as [Hn|_]; [by destruct Hn|].
  destruct lm as [tm|], ll as [tl|], lp as [tp|]; world_simpl; reflexivity.
Qed.

Lemma on_packet_stamped packet datetime_now w tm tp tl :
  main_state w = RUNNING ->
  command (payload packet) = DAT_RECV ->
  last_meas_time w = Some tm -> last_plot_time w = Some tp -> last_log_time w = Some tl ->
  on_packet packet datetime_now w
  = Ok (packet_effect (data (payload packet)) datetime_now w).
Proof.
  intros Hs Hc Hm Hp Hl. unfold on_packet.
  destruct (decide (main_state w <> RUNNING)) as [Hn|_]; [by destruct Hn|].
  destruct (decide (command (payload packet) <> DAT_RECV)) as [Hn|_]; [by destruct Hn|].
  unfold packet_effect, gate_open, gate_stamp, plot_point, signed_power, signed_current.
  destruct w as [? lg ? ? ? ? lm lp ll ? ? ? ? ? ? ? ? ? q ? ?].
  cbn in Hm, Hp, Hl. subst lm lp ll. clear Hs.
  destruct lg; world_simpl.
  all: repeat (gate_case; world_simpl).
  all: rewrite ?app_nil_r, <- ?app_assoc; reflexivity.
Qed.

Lemma packet_effect_stamps d datetime_now w :
  packet_effect d datetime_now
    (set_last_plot_time (Some (default datetime_now (last_plot_time w)))
       (set_last_log_time (Some (default datetime_now (last_log_time w)))
          (set_last_meas_time (Some (default datetime_now (last_meas_time w))) w)))
  = packet_effect d datetime_now w.
Proof.
  unfold packet_effect, gate_open, gate_stamp, plot_point, signed_power, signed_current.
  destruct w as [? lg ? ? ? ? lm lp ll ? ? ? ? ? ? ? ? ? q ? ?].
  destruct lm as [tm|], ll as [tl|], lp as [tp|]; world_simpl; reflexivity.
Qed.

(** A measurement that arrives while RUNNING passes the three gates. *)
Lemma on_packet_running packet datetime_now w :
  main_state w = RUNNING ->
  command (payload packet) = DAT_RECV ->
  on_packet packet datetime_now w
  = Ok (packet_effect (data (payload packet)) datetime_now w).
Proof.
  intros Hs Hc. rewrite on_packet_stamps by done.
  erewrite on_packet_stamped by (done || reflexivity).
  by rewrite packet_effect_stamps.
Qed.

(** On every input the handler returns normally: the subtractions it
    performs never meet an unset timestamp. *)
Lemma on_packet_returns packet datetime_now w :
  on_packet packet datetime_now w = Ok w
  \/ on_packet packet datetime_now w
     = Ok (packet_effect (data (payload packet)) datetime_now w).
Proof.
  destruct (decide (main_state w = RUNNING)) as [Hs|Hs];
    [|left; apply on_packet_dropped; by left].
  destruct (decide (command (payload packet) = DAT_RECV)) as [Hc|Hc];
    [|left; apply on_packet_dropped; by right].
  right. by apply on_packet_running.
Qed.

(** ** The rate gates *)

Lemma datetime_sub_diag t : datetime_sub t t = 0.
Proof. unfold datetime_sub. lia. Qed.

(** A gate whose timestamp is unset stays shut unless its period is negative. *)
Lemma gate_open_unset period_ms datetime_now :
  0 <= period_ms -> gate_open period_ms None datetime_now = false.
Proof.
  intros H. unfold gate_open. cbn [from_option id default].
  rewrite datetime_sub_diag. unfold timedelta_milliseconds. apply Z.ltb_ge. lia.
Qed.

Lemma gate_open_set period_ms t datetime_now :
  gate_open period_ms (Some t) datetime_now = should_fire period_ms (Some t) datetime_now.
Proof. reflexivity. Qed.

(** The instants of the spec's scenario: 0, 100, 200, 300 and 400 ms. *)
Lemma feed_scenario :
  exists w', feed data_packet (map noon_plus [0; 100; 200; 300; 400]) running_world = Ok w'
             /\ plotted_at (next_tick_callbacks w') = [noon_plus 300].
Proof. eexists. split; vm_compute; reflexivity. Qed.




(** C7.  A packet that arrives while the connection is not RUNNING, or whose
    command is not the measurement tag, is dropped without raising and
    without any effect: the handler returns the state it was given, so no
    row is written, no callback is submitted, nothing is plotted or shown
    and the three gate timestamps are what they were. *)
Theorem C7_other_packets_have_no_effect packet datetime_now w :
  main_state w <> RUNNING \/ command (payload packet) <> DAT_RECV ->
  on_packet packet datetime_now w = Ok w
  /\ forall w',
       on_packet packet datetime_now w = Ok w' ->
       files w' = files w
       /\ next_tick_callbacks w' = next_tick_callbacks w
       /\ data_source w' = data_source w
       /\ measurement_label w' = measurement_label w
       /\ last_plot_time w' = last_plot_time w
       /\ last_log_time w' = last_log_time w
       /\ last_meas_time w' = last_meas_time w.
Proof.
  intros H. pose proof (on_packet_dropped packet datetime_now w H) as E.
  split; [exact E|]. intros w' Hw'. rewrite E in Hw'. by injection Hw' as <-.
Qed.

(** A measurement while Stopped, and another command while RUNNING. *)
Lemma C7_witness :
  (main_state initial_world <> RUNNING
   /\ on_packet data_packet (noon_plus 0) initial_world = Ok initial_world)
  /\ (command (payload other_packet) <> DAT_RECV
      /\ on_packet other_packet (noon_plus 0) running_world = Ok running_world).
Proof.
  assert (H1 : main_state initial_world <> RUNNING) by discriminate.
  assert (H2 : command (payload other_packet) <> DAT_RECV) by discriminate.
  split; (split; [assumption|]).
  - exact (proj1 (C7_other_packets_have_no_effect data_packet (noon_plus 0)
                    initial_world (or_introl H1))).
  - exact (proj1 (C7_other_packets_have_no_effect other_packet (noon_plus 0)
                    running_world (or_intror H2))).
Defined.

(** ** Fan-out to the three consumers *)

Lemma filter_is_plot_effect q (a b : bool) p m :
  List.filter is_plot
    (q ++ (if a then [call_update p] else [])
       ++ (if b then [measurement_label_update m] else []))
  = List.filter is_plot q ++ (if a then [call_update p] else []).
Proof. rewrite !List.filter_app. destruct a, b; cbn; by rewrite ?app_nil_r. Qed.

Lemma filter_is_status_effect q (a b : bool) p m :
  List.filter is_status
    (q ++ (if a then [call_update p] else [])
       ++ (if b then [measurement_label_update m] else []))
  = List.filter is_status q ++ (if b then [measurement_label_update m] else []).
Proof. rewrite !List.filter_app. destruct a, b; cbn; by rewrite ?app_nil_r. Qed.




(** ** The sample transform and the sign policy *)

Lemma call_on_invert_sign_switch t new w :
  call t (on_invert_sign_switch new w) = on_invert_sign_switch new (call t w).
Proof. destruct t; reflexivity. Qed.

Lemma fold_call_on_invert_sign_switch q new w :
  fold_left (fun w t => call t w) q (on_invert_sign_switch new w)
  = on_invert_sign_switch new (fold_left (fun w t => call t w) q w).
Proof.
  revert w. induction q as [|t q IH]; intros w; [done|].
  cbn [fold_left]. by rewrite call_on_invert_sign_switch, IH.
Qed.

(** Flipping the policy and running the pending callbacks commute. *)
Lemma run_callbacks_on_invert_sign_switch new w :
  run_callbacks (on_invert_sign_switch new w)
  = on_invert_sign_switch new (run_callbacks w).
Proof.
  unfold run_callbacks.
  change (next_tick_callbacks (on_invert_sign_switch new w)) with (next_tick_callbacks w).
  change (set_next_tick_callbacks [] (on_invert_sign_switch new w))
    with (on_invert_sign_switch new (set_next_tick_callbacks [] w)).
  apply fold_call_on_invert_sign_switch.
Qed.



(** The plotted current and power of the sample packet under both policies. *)
Example sample_inverted :
  signed_current true sample_data = (-2)%float
  /\ signed_power true sample_data = (-10)%float
  /\ signed_current false sample_data = 2%float
  /\ signed_power false sample_data = 10%float.
Proof. repeat split; reflexivity. Qed.

(** ** The persistent log *)

Lemma digit_inj a b : digit a = digit b -> a mod 10 = b mod 10.
Proof.
  unfold digit. intros H. apply (f_equal nat_of_ascii) in H.
  pose proof (Z.mod_pos_bound a 10 eq_refl). pose proof (Z.mod_pos_bound b 10 eq_refl).
  rewrite !nat_ascii_embedding in H by lia. lia.
Qed.

Lemma two_digits_inj a b :
  0 <= a < 100 -> 0 <= b < 100 ->
  (a / 10) mod 10 = (b / 10) mod 10 -> a mod 10 = b mod 10 -> a = b.
Proof. intros. Z.to_euclidean_division_equations. lia. Qed.

Lemma four_digits_inj a b :
  0 <= a < 10000 -> 0 <= b < 10000 ->
  (a / 10 / 10 / 10) mod 10 = (b / 10 / 10 / 10) mod 10 ->
  (a / 10 / 10) mod 10 = (b / 10 / 10) mod 10 ->
  (a / 10) mod 10 = (b / 10) mod 10 -> a mod 10 = b mod 10 -> a = b.
Proof. intros. Z.to_euclidean_division_equations. lia. Qed.

(** The file name determines the instant it was chosen at, to the second. *)
Lemma csv_file_name_inj a b t1 t2 :
  valid_datetime a -> valid_datetime b ->
  csv_file_name a t1 = csv_file_name b t2 ->
  year a = year b /\ month a = month b /\ day a = day b
  /\ hour a = hour b /\ minute a = minute b /\ second a = second b.
Proof.
  intros (Hy & Hmo & Hd & Hh & Hmi & Hs & _) (Hy' & Hmo' & Hd' & Hh' & Hmi' & Hs' & _) H.
  unfold csv_file_name, strftime_Ymd_HMS in H. cbv [zero_pad String.append] in H.
  injection H as Hy1 Hy2 Hy3 Hy4 Hmo1 Hmo2 Hd1 Hd2 Hh1 Hh2 Hmi1 Hmi2 Hs1 Hs2 _.
  apply digit_inj in Hy1, Hy2, Hy3, Hy4, Hmo1, Hmo2, Hd1, Hd2, Hh1, Hh2, Hmi1, Hmi2, Hs1, Hs2.
  repeat split;
    first [ solve [apply four_digits_inj; (lia || done)]
          | solve [apply two_digits_inj; (lia || done)] ].
Qed.

(** [main_method] writes the meter, the error string, the pending callbacks,
    what is printed and the state, and nothing else. *)
Lemma main_method_frame outcome w w' :
  main_method outcome w = Ok w' ->
  logging w' = logging w /\ csv_file w' = csv_file w /\ files w' = files w
  /\ data_source w' = data_source w /\ disabled w' = disabled w
  /\ last_meas_time w' = last_meas_time w /\ last_plot_time w' = last_plot_time w
  /\ last_log_time w' = last_log_time w /\ invert_current w' = invert_current w.
Proof.
  unfold main_method, with_meter. intros H.
  destruct (main_state w); [by inversion H| |by inversion H|].
  - destruct outcome; [by inversion H|by inversion H|].
    cbn in H. destruct (decide (status_label w <> "")); inversion H; done.
  - destruct (meter w); cbn in H; [|discriminate]. by inversion H.
Qed.



(** ** The connection lifecycle *)

(** A deferred callable writes widget properties and the plot window only. *)
Lemma call_frame t w :
  main_state (call t w) = main_state w
  /\ error_string (call t w) = error_string w
  /\ next_tick_callbacks (call t w) = next_tick_callbacks w
  /\ logging (call t w) = logging w
  /\ files (call t w) = files w.
Proof. destruct t; repeat split; reflexivity. Qed.

Lemma fold_call_frame q w :
  let w' := fold_left (fun w t => call t w) q w in
  main_state w' = main_state w
  /\ error_string w' = error_string w
  /\ next_tick_callbacks w' = next_tick_callbacks w.
Proof.
  revert w. induction q as [|t q IH]; intros w; [done|].
  cbn [fold_left]. destruct (IH (call t w)) as (-> & -> & ->).
  destruct (call_frame t w) as (-> & -> & -> & _). done.
Qed.

(** Running the callbacks is taking as many turns of the event loop as
    there are pending callbacks. *)
Lemma ticks_run_callbacks w :
  ticks (length (next_tick_callbacks w)) w = run_callbacks w.
Proof.
  unfold run_callbacks, ticks.
  remember (next_tick_callbacks w) as q eqn:Hq. revert w Hq.
  induction q as [|t q IH]; intros w Hq.
  - cbn. rewrite Hq. by destruct w.
  - cbn [length fold_left]. rewrite Nat.iter_succ_r.
    replace (next_tick w) with (call t (set_next_tick_callbacks q w))
      by (unfold next_tick; by rewrite <- Hq).
    rewrite (IH (call t (set_next_tick_callbacks q w))).
    + f_equal. destruct t; reflexivity.
    + by destruct (call_frame t (set_next_tick_callbacks q w)) as (_ & _ & -> & _).
Qed.

Lemma next_tick_callbacks_connect_failed e w :
  next_tick_callbacks (connect_failed e w)
  = next_tick_callbacks w ++ connect_failed_callbacks.
Proof.
  unfold connect_failed, connect_failed_callbacks, add_next_tick_callback, print.
  cbn [next_tick_callbacks set_main_state set_next_tick_callbacks set_stdout
       set_error_string].
  by rewrite <- !app_assoc.
Qed.

(** What the event loop leaves once it has run the callbacks of a failed
    connection attempt, whatever was still pending before them. *)
Lemma run_callbacks_connect_failed e w :
  let w' := run_callbacks (connect_failed e w) in
  main_state w' = STOPPED
  /\ status_label w' = exn_type_name e +:+ ": " +:+ exn_str e
  /\ disabled w' device_select = false
  /\ disabled w' open_conn_button = false
  /\ disabled w' invert_sign_switch = false
  /\ next_tick_callbacks w' = [].
Proof.
  unfold run_callbacks. rewrite next_tick_callbacks_connect_failed, fold_left_app.
  set (w0 := set_next_tick_callbacks [] (connect_failed e w)).
  pose proof (fold_call_frame (next_tick_callbacks w) w0) as (Hs & He & Hq).
  revert Hs He Hq. generalize (fold_left (fun w t => call t w) (next_tick_callbacks w) w0).
  intros wq Hs He Hq. cbn [connect_failed_callbacks fold_left call].
  repeat split; try exact Hs; try exact He; try exact Hq.
Qed.

(** C3.  From Stopped, an open request followed by a turn of the
    supervising loop in which the connection attempt raises leaves the
    state at Stopped and submits, after whatever was pending, exactly four
    callbacks: the status text and one re-enabling of each of the device
    selection, the open button and the sign switch, which the request had
    disabled.  Once the event loop has run them the status label shows the
    error message (the exception's type name, a colon and its text, as the
    loop formats it), the three controls are enabled and nothing is left
    pending. *)
Theorem C3_failed_connect_ends_stopped e outcome w :
  main_state w = STOPPED ->
  outcome = raised_in_constructor e \/ outcome = raised_in_connect e ->
  let requested := on_open_conn_button w in
  main_state requested = INITIALIZING
  /\ disabled requested device_select = true
  /\ disabled requested open_conn_button = true
  /\ disabled requested invert_sign_switch = true
  /\ exists w',
       main_method outcome requested = Ok w'
       /\ main_state w' = STOPPED
       /\ next_tick_callbacks w'
          = next_tick_callbacks w
              ++ [ status_label_update_error_string;
                   widget_update_disabled device_select false;
                   widget_update_disabled open_conn_button false;
                   widget_update_disabled invert_sign_switch false ]
       /\ (forall x,
             x = device_select \/ x = open_conn_button \/ x = invert_sign_switch ->
             length (List.filter (enables x)
                       (drop (length (next_tick_callbacks w)) (next_tick_callbacks w')))
             = 1%nat)
       /\ main_state (run_callbacks w') = STOPPED
       /\ status_label (run_callbacks w') = exn_type_name e +:+ ": " +:+ exn_str e
       /\ disabled (run_callbacks w') device_select = false
       /\ disabled (run_callbacks w') open_conn_button = false
       /\ disabled (run_callbacks w') invert_sign_switch = false
       /\ next_tick_callbacks (run_callbacks w') = [].
Proof.
  intros _ Houtcome requested.
  do 4 (split; [reflexivity|]).
  assert (Hrun : exists w0,
            next_tick_callbacks w0 = next_tick_callbacks w
            /\ main_method outcome requested = Ok (connect_failed e w0)).
  { destruct Houtcome as [-> | ->]; eexists; (split; [|reflexivity]); reflexivity. }
  destruct Hrun as (w0 & Hq & Hrun). exists (connect_failed e w0).
  split; [exact Hrun|]. split; [reflexivity|].
  rewrite next_tick_callbacks_connect_failed, Hq.
  split; [reflexivity|]. split.
  { intros x Hx. rewrite drop_app_length.
    destruct Hx as [-> | [-> | ->]]; reflexivity. }
  apply run_callbacks_connect_failed.
Qed.

(** The first open request of a session, with [connect] raising. *)
Lemma C3_witness :
  main_state initial_world = STOPPED
  /\ exists w',
       main_method (raised_in_connect connect_error) (on_open_conn_button initial_world)
       = Ok w'
       /\ main_state w' = STOPPED
       /\ status_label (run_callbacks w') = "OSError: open failed"
       /\ disabled (run_callbacks w') open_conn_button = false.
Proof.
  split; [reflexivity|].
  destruct (C3_failed_connect_ends_stopped connect_error (raised_in_connect connect_error)
              initial_world eq_refl (or_intror eq_refl))
    as (_ & _ & _ & _ & w' & Hw & Hs & _ & _ & _ & Ht & _ & Ho & _).
  exists w'. split; [exact Hw|]. split; [exact Hs|]. split; [exact Ht | exact Ho].
Defined.

(** C4 (as the script behaves).  The open-request handler has no guard on
    the connection state: whatever the state, it sets it to Initializing,
    so the state is left unchanged only when it already was Initializing.
    What keeps a second request away is the open button, which the handler
    leaves disabled. *)
Theorem C4_open_request_is_unguarded w :
  main_state (on_open_conn_button w) = INITIALIZING
  /\ (main_state (on_open_conn_button w) = main_state w <-> main_state w = INITIALIZING)
  /\ disabled (on_open_conn_button w) open_conn_button = true.
Proof.
  split; [reflexivity|]. split; [|reflexivity].
  change (main_state (on_open_conn_button w)) with INITIALIZING. split; congruence.
Qed.

(** The claim as worded fails: an open request handled while RUNNING moves
    the state to Initializing. *)
Lemma C4_open_request_while_running :
  main_state running_world = RUNNING
  /\ main_state (on_open_conn_button running_world) = INITIALIZING.
Proof. split; reflexivity. Qed.

(** The state after a turn of the supervising loop. *)
Lemma main_state_main_method outcome w w' :
  main_method outcome w = Ok w' ->
  main_state w'
  = match main_state w with
    | INITIALIZING => match outcome with connect_ok => RUNNING | _ => STOPPED end
    | RUNNING => RUNNING
    | STOPPED | STOPPING => STOPPED
    end.
Proof.
  unfold main_method, with_meter. intros H.
  destruct (main_state w) eqn:Hs; [inversion H; by subst| |inversion H; by subst|].
  - destruct outcome; [by inversion H|by inversion H|].
    cbn in H. destruct (decide (status_label w <> "")); inversion H; done.
  - destruct (meter w); cbn in H; [|discriminate]. by inversion H.
Qed.

(** C5 (as the script behaves).  The packet handler never changes the
    connection state, and neither do the deferred callbacks nor the handlers
    of the device selection, the sign switch, the title, the two periods,
    the logging buttons and the clear button.  The state has four writers:
    the supervising loop, the open-request handler (to Initializing), the
    close-request handler (to Stopping) and the device error callback (to
    Stopped). *)
Theorem C5_writers_of_the_connection_state :
  (forall packet datetime_now w,
     exists w', on_packet packet datetime_now w = Ok w' /\ main_state w' = main_state w)
  /\ (forall t w, main_state (call t w) = main_state w)
  /\ (forall w s z b datetime_now,
        main_state (on_device_select s w) = main_state w
        /\ main_state (on_invert_sign_switch b w) = main_state w
        /\ main_state (on_title_input s w) = main_state w
        /\ main_state (on_log_period_input z w) = main_state w
        /\ main_state (on_plot_period_input z w) = main_state w
        /\ main_state (on_start_log_button datetime_now w) = main_state w
        /\ main_state (on_stop_log_button w) = main_state w
        /\ main_state (on_clear_plot_button w) = main_state w)
  /\ (forall error w, main_state (on_error error w) = STOPPED)
  /\ (forall w, main_state (on_open_conn_button w) = INITIALIZING)
  /\ (forall w, main_state (on_close_conn_button w) = STOPPING)
  /\ (forall outcome w w',
        main_method outcome w = Ok w' ->
        main_state w'
        = match main_state w with
          | INITIALIZING => match outcome with connect_ok => RUNNING | _ => STOPPED end
          | RUNNING => RUNNING
          | STOPPED | STOPPING => STOPPED
          end).
Proof.
  split; [|split; [|split; [|split; [|split; [|split]]]]].
  - intros packet datetime_now w.
    destruct (on_packet_returns packet datetime_now w) as [-> | ->]; eexists; by split.
  - intros t w. by destruct t.
  - intros. repeat split; reflexivity.
  - reflexivity.
  - reflexivity.
  - reflexivity.
  - apply main_state_main_method.
Qed.

(** A turn of the loop on a successful connection attempt. *)
Lemma C5_witness :
  exists w',
    main_method connect_ok (on_open_conn_button initial_world) = Ok w'
    /\ main_state w' = RUNNING.
Proof.
  assert (H : exists w',
            main_method connect_ok (on_open_conn_button initial_world) = Ok w')
    by (eexists; vm_compute; reflexivity).
  destruct H as (w' & H). exists w'. split; [exact H|].
  exact (proj2 (proj2 (proj2 (proj2 (proj2 (proj2 C5_writers_of_the_connection_state)))))
           connect_ok (on_open_conn_button initial_world) w' H).
Defined.

(** The claim as worded fails: the device error callback, called while
    RUNNING, moves the state to Stopped. *)
Lemma C5_error_callback_writes_state :
  main_state running_world = RUNNING
  /\ main_state (on_error connect_error running_world) = STOPPED.
Proof. split; reflexivity. Qed.

(** C10.  Handling an open request and handling a start-logging request
    each empty the plot window: the window is already empty in the state on
    which the handler then writes the new connection state, respectively
    the logging flag, which still have their old values there.  Whatever is
    streamed afterwards, the window holds streamed points only. *)
Theorem C10_requests_clear_the_window :
  (forall w,
     data_source (on_open_conn_button w) = CDS.empty
     /\ exists cleared,
          on_open_conn_button w = set_main_state INITIALIZING cleared
          /\ data_source cleared = CDS.empty
          /\ main_state cleared = main_state w)
  /\ (forall datetime_now w,
        data_source (on_start_log_button datetime_now w) = CDS.empty
        /\ exists cleared,
             on_start_log_button datetime_now w = set_logging true cleared
             /\ data_source cleared = CDS.empty
             /\ logging cleared = logging w)
  /\ (forall pts datetime_now w,
        data_source (plot_all pts (on_open_conn_button w))
        = columns_of (lastn (Z.to_nat MAX_X_POINTS) pts)
        /\ data_source (plot_all pts (on_start_log_button datetime_now w))
           = columns_of (lastn (Z.to_nat MAX_X_POINTS) pts)).
Proof.
  split; [|split].
  - intros w. split; [reflexivity|]. eexists. split; [reflexivity|]. by split.
  - intros datetime_now w. split; [reflexivity|]. eexists. split; [reflexivity|]. by split.
  - intros pts datetime_now w. split; by apply plot_all_from_empty.
Qed.

(** The spec's scenario for the window: capacity 3 and five appends. *)
Example evict_front_scenario :
  fold_left (fun l x => evict_front 3 (l ++ [x])) ["A"; "B"; "C"; "D"; "E"]%string []
  = ["C"; "D"; "E"]%string.
Proof. reflexivity. Qed.

(** * Further properties *)

(** ** What the packet handler leaves alone *)

(** The handler either drops the packet or applies [packet_effect], by cases
    on the state and on the command. *)
Lemma on_packet_cases packet datetime_now w :
  (main_state w = RUNNING /\ command (payload packet) = DAT_RECV
   /\ on_packet packet datetime_now w
      = Ok (packet_effect (data (payload packet)) datetime_now w))
  \/ ((main_state w <> RUNNING \/ command (payload packet) <> DAT_RECV)
      /\ on_packet packet datetime_now w = Ok w).
Proof.
  destruct (decide (main_state w = RUNNING)) as [Hs|Hs];
    [|right; split; [by left | apply on_packet_dropped; by left]].
  destruct (decide (command (payload packet) = DAT_RECV)) as [Hc|Hc];
    [|right; split; [by right | apply on_packet_dropped; by right]].
  left. split; [done|]. split; [done|]. by apply on_packet_running.
Qed.


(** ** The gates over time *)

Lemma gate_open_spec period_ms t datetime_now :
  gate_open period_ms (Some t) datetime_now = true
  <-> period_ms * 1000 < total_microseconds datetime_now - total_microseconds t.
Proof.
  unfold gate_open, timedelta_milliseconds, datetime_sub. cbn [default from_option id].
  apply Z.ltb_lt.
Qed.

Lemma gate_stamp_not_before period_ms (fired : bool) t datetime_now :
  0 <= period_ms ->
  (fired = true -> gate_open period_ms (Some t) datetime_now = true) ->
  exists t',
    gate_stamp fired (Some t) datetime_now = Some t'
    /\ total_microseconds t <= total_microseconds t'.
Proof.
  intros Hp Hf. destruct fired; cbn [gate_stamp default from_option id].
  - exists datetime_now. split; [done|].
    specialize (Hf eq_refl). apply gate_open_spec in Hf. lia.
  - exists t. split; [done | lia].
Qed.

(** With periods that are not negative, no gate timestamp ever moves back,
    whatever the clock reads; and once a measurement was handled while
    RUNNING all three timestamps are set. *)
Theorem gate_timestamps_never_move_back packet datetime_now w w' :
  0 <= plot_period_ms w ->
  0 <= log_period_ms w ->
  on_packet packet datetime_now w = Ok w' ->
  (forall t, last_plot_time w = Some t ->
     exists t', last_plot_time w' = Some t'
                /\ total_microseconds t <= total_microseconds t')
  /\ (forall t, last_log_time w = Some t ->
        exists t', last_log_time w' = Some t'
                   /\ total_microseconds t <= total_microseconds t')
  /\ (forall t, last_meas_time w = Some t ->
        exists t', last_meas_time w' = Some t'
                   /\ total_microseconds t <= total_microseconds t')
  /\ (main_state w = RUNNING -> command (payload packet) = DAT_RECV ->
      is_Some (last_plot_time w') /\ is_Some (last_log_time w')
      /\ is_Some (last_meas_time w')).
Proof.
  intros Hp Hl H.
  destruct (on_packet_cases packet datetime_now w) as [(_ & _ & E) | (Hd & E)];
    rewrite E in H; injection H as <-.
  - split; [|split; [|split]].
    + intros t Ht.
      change (last_plot_time (packet_effect (data (payload packet)) datetime_now w))
        with (gate_stamp (gate_open (plot_period_ms w) (last_plot_time w) datetime_now)
                (last_plot_time w) datetime_now).
      rewrite Ht. by apply (gate_stamp_not_before (plot_period_ms w)).
    + intros t Ht.
      change (last_log_time (packet_effect (data (payload packet)) datetime_now w))
        with (gate_stamp
                (logging w && gate_open (log_period_ms w) (last_log_time w) datetime_now)
                (last_log_time w) datetime_now).
      rewrite Ht. apply (gate_stamp_not_before (log_period_ms w)); [done|].
      by intros (_ & ?)%andb_true_iff.
    + intros t Ht.
      change (last_meas_time (packet_effect (data (payload packet)) datetime_now w))
        with (gate_stamp (gate_open (log_period_ms w) (last_meas_time w) datetime_now)
                (last_meas_time w) datetime_now).
      rewrite Ht. by apply (gate_stamp_not_before (log_period_ms w)).
    + intros _ _. unfold packet_effect, gate_stamp.
      cbn [last_meas_time last_plot_time last_log_time set_last_meas_time
           set_last_plot_time set_last_log_time].
      repeat split; match goal with |- is_Some (if ?b then _ else _) => by destruct b end.
  - split; [|split; [|split]]; try (intros t Ht; exists t; split; [done | lia]).
    intros Hs Hc. by destruct Hd.
Qed.

(** A clock that jumps back by 200 ms does not move the plot timestamp. *)
Lemma gate_timestamps_never_move_back_witness :
  0 <= plot_period_ms fired_world
  /\ 0 <= log_period_ms fired_world
  /\ last_plot_time fired_world = Some (noon_plus 300)
  /\ exists w',
       on_packet data_packet (noon_plus 100) fired_world = Ok w'
       /\ exists t', last_plot_time w' = Some t'
                     /\ total_microseconds (noon_plus 300) <= total_microseconds t'.
Proof.
  assert (Hp : 0 <= plot_period_ms fired_world) by (vm_compute; discriminate).
  assert (Hl : 0 <= log_period_ms fired_world) by (vm_compute; discriminate).
  split; [exact Hp|]. split; [exact Hl|]. split; [reflexivity|].
  exists (packet_effect sample_data (noon_plus 100) fired_world).
  split; [reflexivity|].
  exact (proj1 (gate_timestamps_never_move_back data_packet (noon_plus 100)
                  fired_world _ Hp Hl eq_refl) (noon_plus 300) eq_refl).
Defined.

Lemma plotted_at_effect q (a b : bool) p m :
  plotted_at
    (q ++ (if a then [call_update p] else [])
       ++ (if b then [measurement_label_update m] else []))
  = plotted_at q ++ (if a then [pt_datetime p] else []).
Proof.
  unfold plotted_at. rewrite !omap_app. destruct a, b; cbn; by rewrite ?app_nil_r.
Qed.

Lemma gate_shut_within_period period_ms t datetime_now :
  datetime_sub datetime_now t <= timedelta_milliseconds period_ms ->
  gate_open period_ms (Some t) datetime_now = false.
Proof. intros H. unfold gate_open. cbn [default from_option id]. by apply Z.ltb_ge. Qed.

(** Once a gate has fired at an instant, a measurement that comes no more
    than the period after that instant does not fire it again: nothing
    more is plotted, respectively written or shown, and the gate keeps the
    instant of its last fire. *)
Theorem gate_does_not_fire_again_within_period packet1 packet2 t1 t2 w :
  main_state w = RUNNING ->
  command (payload packet1) = DAT_RECV ->
  command (payload packet2) = DAT_RECV ->
  exists w1 w2,
    on_packet packet1 t1 w = Ok w1
    /\ on_packet packet2 t2 w1 = Ok w2
    /\ (gate_open (plot_period_ms w) (last_plot_time w) t1 = true ->
        datetime_sub t2 t1 <= timedelta_milliseconds (plot_period_ms w) ->
        plotted_at (next_tick_callbacks w2) = plotted_at (next_tick_callbacks w1)
        /\ last_plot_time w2 = Some t1)
    /\ (logging w = true ->
        gate_open (log_period_ms w) (last_log_time w) t1 = true ->
        datetime_sub t2 t1 <= timedelta_milliseconds (log_period_ms w) ->
        files w2 = files w1 /\ last_log_time w2 = Some t1)
    /\ (gate_open (log_period_ms w) (last_meas_time w) t1 = true ->
        datetime_sub t2 t1 <= timedelta_milliseconds (log_period_ms w) ->
        List.filter is_status (next_tick_callbacks w2)
        = List.filter is_status (next_tick_callbacks w1)
        /\ last_meas_time w2 = Some t1).
Proof.
  intros Hs Hc1 Hc2.
  set (w1 := packet_effect (data (payload packet1)) t1 w).
  exists w1, (packet_effect (data (payload packet2)) t2 w1).
  split; [by apply on_packet_running|]. split; [by apply on_packet_running|].
  assert (Hplot : last_plot_time w1
                  = gate_stamp (gate_open (plot_period_ms w) (last_plot_time w) t1)
                      (last_plot_time w) t1) by reflexivity.
  assert (Hlog : last_log_time w1
                 = gate_stamp
                     (logging w && gate_open (log_period_ms w) (last_log_time w) t1)
                     (last_log_time w) t1) by reflexivity.
  assert (Hmeas : last_meas_time w1
                  = gate_stamp (gate_open (log_period_ms w) (last_meas_time w) t1)
                      (last_meas_time w) t1) by reflexivity.
  split; [|split].
  - intros Hfired Hnear. rewrite Hfired in Hplot. cbn [gate_stamp] in Hplot.
    pose proof (gate_shut_within_period _ _ _ Hnear) as Hshut.
    unfold packet_effect.
    cbn [next_tick_callbacks last_plot_time set_last_meas_time set_last_plot_time
         set_last_log_time set_next_tick_callbacks].
    rewrite plotted_at_effect, Hplot.
    change (plot_period_ms w1) with (plot_period_ms w). rewrite Hshut.
    by rewrite app_nil_r.
  - intros Hlogging Hfired Hnear. rewrite Hlogging, Hfired in Hlog.
    cbn [gate_stamp andb] in Hlog.
    pose proof (gate_shut_within_period _ _ _ Hnear) as Hshut.
    unfold packet_effect.
    cbn [files last_log_time set_last_meas_time set_last_plot_time
         set_last_log_time set_next_tick_callbacks set_files].
    rewrite Hlog. change (log_period_ms w1) with (log_period_ms w). rewrite Hshut.
    by rewrite andb_false_r.
  - intros Hfired Hnear. rewrite Hfired in Hmeas. cbn [gate_stamp] in Hmeas.
    pose proof (gate_shut_within_period _ _ _ Hnear) as Hshut.
    unfold packet_effect.
    cbn [next_tick_callbacks last_meas_time set_last_meas_time set_last_plot_time
         set_last_log_time set_next_tick_callbacks].
    rewrite filter_is_status_effect, Hmeas.
    change (log_period_ms w1) with (log_period_ms w). rewrite Hshut.
    by rewrite app_nil_r.
Qed.

(** A sample 300 ms after the stamps opens the plot gate; one 200 ms later
    is within the 250 ms period. *)
Lemma gate_does_not_fire_again_within_period_witness :
  main_state stamped_world = RUNNING
  /\ command (payload data_packet) = DAT_RECV
  /\ gate_open (plot_period_ms stamped_world) (last_plot_time stamped_world)
       (noon_plus 300) = true
  /\ datetime_sub (noon_plus 500) (noon_plus 300)
     <= timedelta_milliseconds (plot_period_ms stamped_world)
  /\ exists w1 w2,
       on_packet data_packet (noon_plus 300) stamped_world = Ok w1
       /\ on_packet data_packet (noon_plus 500) w1 = Ok w2
       /\ plotted_at (next_tick_callbacks w2) = plotted_at (next_tick_callbacks w1)
       /\ last_plot_time w2 = Some (noon_plus 300).
Proof.
  assert (Hopen : gate_open (plot_period_ms stamped_world) (last_plot_time stamped_world)
                    (noon_plus 300) = true) by reflexivity.
  assert (Hnear : datetime_sub (noon_plus 500) (noon_plus 300)
                  <= timedelta_milliseconds (plot_period_ms stamped_world))
    by (vm_compute; discriminate).
  do 2 (split; [reflexivity|]). split; [exact Hopen|]. split; [exact Hnear|].
  destruct (gate_does_not_fire_again_within_period data_packet data_packet
              (noon_plus 300) (noon_plus 500) stamped_world eq_refl eq_refl eq_refl)
    as (w1 & w2 & H1 & H2 & Hplot & _).
  exists w1, w2. split; [exact H1|]. split; [exact H2|]. exact (Hplot Hopen Hnear).
Defined.

(** ** Runs of measurements *)

Lemma feed_cons packet t rest w w1 :
  on_packet packet t w = Ok w1 ->
  feed packet (t :: rest) w = feed packet rest w1.
Proof. intros H. cbn [feed]. by rewrite H. Qed.

(** With a zero plot period and a set timestamp, every sample that comes
    strictly later than the one before is plotted. *)
Lemma feed_plots_every_sample packet ts :
  forall w t,
    main_state w = RUNNING ->
    command (payload packet) = DAT_RECV ->
    plot_period_ms w = 0 ->
    last_plot_time w = Some t ->
    increasing_from t ts ->
    exists w',
      feed packet ts w = Ok w'
      /\ plotted_at (next_tick_callbacks w') = plotted_at (next_tick_callbacks w) ++ ts.
Proof.
  induction ts as [|u rest IH]; intros w t Hs Hc Hp Hl Hinc.
  - exists w. split; [reflexivity|]. by rewrite app_nil_r.
  - destruct Hinc as [Hlt Hinc].
    set (w1 := packet_effect (data (payload packet)) u w).
    assert (Hopen : gate_open (plot_period_ms w) (last_plot_time w) u = true).
    { rewrite Hp, Hl. apply gate_open_spec. lia. }
    destruct (IH w1 u) as (w' & Hfeed & Hplotted); try done.
    + change (last_plot_time w1)
        with (gate_stamp (gate_open (plot_period_ms w) (last_plot_time w) u)
                (last_plot_time w) u).
      by rewrite Hopen.
    + exists w'. split.
      * rewrite <- Hfeed. apply feed_cons. by apply on_packet_running.
      * rewrite Hplotted. unfold w1, packet_effect.
        cbn [next_tick_callbacks set_last_meas_time set_last_plot_time
             set_last_log_time set_next_tick_callbacks].
        rewrite plotted_at_effect, Hopen. cbn [plot_point pt_datetime].
        by rewrite <- app_assoc.
Qed.



(** While logging is inactive no run of packets writes to any file, and a
    log timestamp that is set stays where it is: it does not follow the
    samples that go by unlogged. *)
Theorem no_rows_while_logging_is_off packet instants :
  forall w,
    logging w = false ->
    exists w',
      feed packet instants w = Ok w'
      /\ files w' = files w
      /\ logging w' = false
      /\ (forall t, last_log_time w = Some t -> last_log_time w' = Some t).
Proof.
  induction instants as [|u rest IH]; intros w Hoff.
  - exists w. by repeat split.
  - destruct (on_packet_cases packet u w) as [(_ & _ & E) | (_ & E)].
    + set (w1 := packet_effect (data (payload packet)) u w) in *.
      destruct (IH w1 Hoff) as (w' & Hfeed & Hfiles & Hlog & Hstamp).
      exists w'. split; [by rewrite (feed_cons _ _ _ _ _ E)|].
      split; [|split; [done|]].
      * rewrite Hfiles. unfold w1, packet_effect.
        cbn [files set_last_meas_time set_last_plot_time set_last_log_time
             set_next_tick_callbacks set_files].
        by rewrite Hoff.
      * intros t Ht. apply Hstamp.
        change (last_log_time w1)
          with (gate_stamp
                  (logging w && gate_open (log_period_ms w) (last_log_time w) u)
                  (last_log_time w) u).
        by rewrite Hoff, Ht.
    + destruct (IH w Hoff) as (w' & Hfeed & Hrest).
      exists w'. split; [by rewrite (feed_cons _ _ _ _ _ E) | exact Hrest].
Qed.

(** The scenario's five samples with logging off. *)
Lemma no_rows_while_logging_is_off_witness :
  logging stamped_world = false
  /\ exists w',
       feed data_packet (map noon_plus [0; 100; 200; 300; 400]) stamped_world = Ok w'
       /\ files w' = files stamped_world
       /\ last_log_time w' = Some (noon_plus 0).
Proof.
  split; [reflexivity|].
  destruct (no_rows_while_logging_is_off data_packet
              (map noon_plus [0; 100; 200; 300; 400]) stamped_world eq_refl)
    as (w' & Hfeed & Hfiles & _ & Hstamp).
  exists w'. split; [exact Hfeed|]. split; [exact Hfiles|]. exact (Hstamp _ eq_refl).
Defined.

(** ** Connecting, closing and errors *)

(** A successful turn of the loop in the INITIALIZING state, in closed form. *)
Lemma main_method_connect_ok w :
  main_state w = INITIALIZING ->
  main_method connect_ok w
  = Ok (set_main_state RUNNING
          (set_meter (Some (meter_of w true true))
             (add_next_tick_callback (widget_update_disabled close_conn_button false)
                (if decide (status_label w <> "")
                 then add_next_tick_callback (status_label_update "") w
                 else w)))).
Proof.
  intros Hs. unfold main_method. rewrite Hs.
  destruct w; destruct (decide (_ <> "")); reflexivity.
Qed.

(** A turn of the loop in the STOPPING state with a meter, in closed form. *)
Lemma main_method_stopping outcome w m :
  main_state w = STOPPING ->
  meter w = Some m ->
  main_method outcome w
  = Ok (set_main_state STOPPED
          (add_next_tick_callback (widget_update_disabled invert_sign_switch false)
             (add_next_tick_callback (widget_update_disabled open_conn_button false)
                (add_next_tick_callback (widget_update_disabled device_select false)
                   (set_meter (Some (set_connected false (set_reading false m))) w))))).
Proof.
  intros Hs Hm. unfold main_method, with_meter. rewrite Hs, Hm.
  cbn [mbind result_bind meter set_meter]. reflexivity.
Qed.

(** When the connection attempt succeeds the loop reaches RUNNING with a
    meter that has both callbacks registered, is connected and is reading.
    If nothing was pending, then once the event loop has run what the loop
    submitted the status text is empty, whatever it showed before, the
    close button is enabled and no other control has changed. *)
Theorem successful_connect_reaches_running w :
  main_state w = INITIALIZING ->
  next_tick_callbacks w = [] ->
  exists w',
    main_method connect_ok w = Ok w'
    /\ main_state w' = RUNNING
    /\ meter w' = Some {| device := selected_device w;
                          recv_callback := true; error_callback := true;
                          connected := true; reading := true |}
    /\ main_state (run_callbacks w') = RUNNING
    /\ status_label (run_callbacks w') = ""
    /\ disabled (run_callbacks w') close_conn_button = false
    /\ (forall x, x <> close_conn_button ->
          disabled (run_callbacks w') x = disabled w x)
    /\ next_tick_callbacks (run_callbacks w') = [].
Proof.
  intros Hs Hq. eexists. split; [by apply main_method_connect_ok|].
  split; [reflexivity|]. split; [reflexivity|].
  unfold run_callbacks.
  destruct (decide (status_label w <> "")) as [Hne|Heq];
    cbn [next_tick_callbacks set_main_state set_meter add_next_tick_callback
         set_next_tick_callbacks];
    rewrite Hq; cbn [app fold_left call].
  - split; [reflexivity|]. split; [reflexivity|]. split; [reflexivity|].
    split; [|reflexivity]. intros x Hx.
    cbn [disabled widget_update set_disabled set_status_label set_next_tick_callbacks
         set_main_state set_meter].
    by rewrite fn_lookup_insert_ne.
  - split; [reflexivity|]. split.
    { cbn [status_label widget_update set_disabled set_next_tick_callbacks
           set_main_state set_meter].
      destruct (status_label w) eqn:E; [done|]. by destruct Heq. }
    split; [reflexivity|]. split; [|reflexivity]. intros x Hx.
    cbn [disabled widget_update set_disabled set_next_tick_callbacks
         set_main_state set_meter].
    by rewrite fn_lookup_insert_ne.
Qed.

(** The first open request of a session, with the connection succeeding. *)
Lemma successful_connect_reaches_running_witness :
  main_state opening_world = INITIALIZING
  /\ next_tick_callbacks opening_world = []
  /\ exists w',
       main_method connect_ok opening_world = Ok w'
       /\ main_state w' = RUNNING
       /\ disabled (run_callbacks w') close_conn_button = false.
Proof.
  do 2 (split; [reflexivity|]).
  destruct (successful_connect_reaches_running opening_world eq_refl eq_refl)
    as (w' & Hw & Hs & _ & _ & _ & Hc & _).
  exists w'. split; [exact Hw|]. split; [exact Hs | exact Hc].
Defined.

(** A close request followed by a turn of the loop stops reading,
    disconnects the meter and returns to Stopped; if nothing was pending,
    then once the event loop has run what the loop submitted the device
    selection, the open button and the sign switch are enabled, the close
    button is disabled and the other controls are as before.  Without a
    meter the same turn raises instead, and the loop ends there. *)
Theorem close_request_disconnects :
  (forall w m outcome,
     meter w = Some m ->
     next_tick_callbacks w = [] ->
     exists w',
       main_method outcome (on_close_conn_button w) = Ok w'
       /\ main_state w' = STOPPED
       /\ meter w' = Some {| device := device m;
                             recv_callback := recv_callback m;
                             error_callback := error_callback m;
                             connected := false; reading := false |}
       /\ main_state (run_callbacks w') = STOPPED
       /\ disabled (run_callbacks w') device_select = false
       /\ disabled (run_callbacks w') open_conn_button = false
       /\ disabled (run_callbacks w') invert_sign_switch = false
       /\ disabled (run_callbacks w') close_conn_button = true
       /\ (forall x, lifecycle_widget x = false ->
             disabled (run_callbacks w') x = disabled w x)
       /\ status_label (run_callbacks w') = status_label w
       /\ next_tick_callbacks (run_callbacks w') = [])
  /\ (forall w outcome,
        meter w = None ->
        main_method outcome (on_close_conn_button w) = Raise AttributeError_None).
Proof.
  split.
  - intros w m outcome Hm Hq. eexists.
    split; [by apply (main_method_stopping outcome (on_close_conn_button w) m)|].
    split; [reflexivity|]. split; [reflexivity|].
    unfold run_callbacks.
    cbn [next_tick_callbacks set_main_state set_meter add_next_tick_callback
         set_next_tick_callbacks on_close_conn_button widget_update set_disabled].
    rewrite Hq. cbn [app fold_left call].
    repeat (split; [reflexivity|]). split; [|split; reflexivity].
    intros x Hx.
    cbn [disabled widget_update set_disabled set_next_tick_callbacks
         set_main_state set_meter].
    destruct x; try discriminate Hx; reflexivity.
  - intros w outcome Hm. unfold main_method, with_meter.
    change (main_state (on_close_conn_button w)) with STOPPING.
    change (meter (on_close_conn_button w)) with (meter w). by rewrite Hm.
Qed.

(** Closing the running connection of the sample session. *)
Lemma close_request_disconnects_witness :
  meter connected_world = Some (meter_of initial_world true true)
  /\ next_tick_callbacks connected_world = []
  /\ exists w',
       main_method connect_ok (on_close_conn_button connected_world) = Ok w'
       /\ main_state w' = STOPPED
       /\ disabled (run_callbacks w') open_conn_button = false
       /\ disabled (run_callbacks w') close_conn_button = true.
Proof.
  do 2 (split; [reflexivity|]).
  destruct (proj1 close_request_disconnects connected_world
              (meter_of initial_world true true) connect_ok eq_refl eq_refl)
    as (w' & Hw & Hs & _ & _ & _ & Ho & _ & Hc & _).
  exists w'. split; [exact Hw|]. split; [exact Hs|]. split; [exact Ho | exact Hc].
Defined.

(** The device error callback moves the state to Stopped and submits the
    error text for the status label, and nothing else: the meter is left as
    it was, no control is re-enabled, and the next turn of the loop, finding
    the state Stopped, neither disconnects nor re-enables anything. *)
Theorem error_callback_stops_without_cleanup error outcome w :
  next_tick_callbacks w = [] ->
  let w1 := on_error error w in
  main_state w1 = STOPPED
  /\ meter w1 = meter w
  /\ next_tick_callbacks w1 = [status_label_update (exn_str error)]
  /\ stdout w1 = stdout w ++ ["Error: " +:+ exn_str error]
  /\ main_method outcome w1 = Ok w1
  /\ status_label (run_callbacks w1) = exn_str error
  /\ disabled (run_callbacks w1) = disabled w
  /\ meter (run_callbacks w1) = meter w
  /\ main_state (run_callbacks w1) = STOPPED.
Proof.
  intros Hq w1. unfold w1, run_callbacks, on_error, add_next_tick_callback, print.
  cbn [next_tick_callbacks set_main_state set_next_tick_callbacks set_stdout].
  rewrite Hq. cbn [app fold_left call].
  repeat split; reflexivity.
Qed.

(** An error reported on the running connection of the sample session. *)
Lemma error_callback_stops_without_cleanup_witness :
  next_tick_callbacks connected_world = []
  /\ main_state (on_error connect_error connected_world) = STOPPED
  /\ disabled (run_callbacks (on_error connect_error connected_world)) open_conn_button
     = true
  /\ status_label (run_callbacks (on_error connect_error connected_world))
     = "open failed".
Proof.
  split; [reflexivity|].
  destruct (error_callback_stops_without_cleanup connect_error connect_ok
              connected_world eq_refl)
    as (Hs & _ & _ & _ & _ & Ht & Hd & _).
  split; [exact Hs|]. split; [|exact Ht].
  rewrite Hd. reflexivity.
Defined.

(** Only the packet handler writes the gate timestamps: they survive a close
    request, the error callback, a new open request, every turn of the
    supervising loop, the start and the stop of logging and every deferred
    callback, so the first sample of a new connection or of a new logging
    session is measured against the timestamps left by the last one. *)
Theorem gate_timestamps_survive_reconnect :
  (forall outcome w w', main_method outcome w = Ok w' -> stamps w' = stamps w)
  /\ (forall w error t s z b datetime_now,
        stamps (on_error error w) = stamps w
        /\ stamps (call t w) = stamps w
        /\ stamps (on_open_conn_button w) = stamps w
        /\ stamps (on_close_conn_button w) = stamps w
        /\ stamps (on_start_log_button datetime_now w) = stamps w
        /\ stamps (on_stop_log_button w) = stamps w
        /\ stamps (on_clear_plot_button w) = stamps w
        /\ stamps (on_device_select s w) = stamps w
        /\ stamps (on_title_input s w) = stamps w
        /\ stamps (on_invert_sign_switch b w) = stamps w
        /\ stamps (on_log_period_input z w) = stamps w
        /\ stamps (on_plot_period_input z w) = stamps w).
Proof.
  split.
  - intros outcome w w' H.
    destruct (main_method_frame _ _ _ H) as (_ & _ & _ & _ & _ & Hm & Hp & Hl & _).
    unfold stamps. by rewrite Hm, Hp, Hl.
  - intros. repeat split; try reflexivity. by destruct t.
Qed.

(** The timestamps of [fired_world] after a close, a turn of the loop and a
    new open request. *)
Lemma gate_timestamps_survive_reconnect_witness :
  exists w',
    main_method connect_ok (on_close_conn_button (set_meter
      (Some (meter_of initial_world true true)) fired_world)) = Ok w'
    /\ stamps (on_open_conn_button w') = stamps fired_world.
Proof.
  assert (H : exists w',
            main_method connect_ok (on_close_conn_button (set_meter
              (Some (meter_of initial_world true true)) fired_world)) = Ok w')
    by (eexists; vm_compute; reflexivity).
  destruct H as (w' & H). exists w'. split; [exact H|].
  change (stamps (on_open_conn_button w')) with (stamps w').
  rewrite (proj1 gate_timestamps_survive_reconnect _ _ _ H). reflexivity.
Defined.

(** A whole session.  From a state with nothing pending: an open request, a
    turn of the loop that connects, the event loop, a close request,
    another turn of the loop and the event loop again end in Stopped with
    the meter disconnected, the device selection, the open button and the
    sign switch enabled, the close button disabled, the other controls as
    they were, an empty status text and an empty plot window; the gate
    timestamps, the logging flag and the files are untouched. *)
Theorem open_close_cycle_restores_controls w outcome :
  next_tick_callbacks w = [] ->
  exists w2 w5,
    main_method connect_ok (on_open_conn_button w) = Ok w2
    /\ main_method outcome (on_close_conn_button (run_callbacks w2)) = Ok w5
    /\ main_state (run_callbacks w5) = STOPPED
    /\ meter (run_callbacks w5)
       = Some {| device := selected_device w;
                 recv_callback := true; error_callback := true;
                 connected := false; reading := false |}
    /\ disabled (run_callbacks w5) device_select = false
    /\ disabled (run_callbacks w5) open_conn_button = false
    /\ disabled (run_callbacks w5) invert_sign_switch = false
    /\ disabled (run_callbacks w5) close_conn_button = true
    /\ (forall x, lifecycle_widget x = false ->
          disabled (run_callbacks w5) x = disabled w x)
    /\ status_label (run_callbacks w5) = ""
    /\ data_source (run_callbacks w5) = CDS.empty
    /\ next_tick_callbacks (run_callbacks w5) = []
    /\ stamps (run_callbacks w5) = stamps w
    /\ logging (run_callbacks w5) = logging w
    /\ files (run_callbacks w5) = files w.
Proof.
  intros Hq. destruct w as [? ? ? ? ? ? ? ? ? ? ? ? ? ? sl ? ? ? q ? ?].
  cbn in Hq. subst q.
  match goal with |- context [on_open_conn_button ?x] => set (w := x) end.
  pose proof (main_method_connect_ok (on_open_conn_button w) eq_refl) as H2.
  match type of H2 with _ = Ok ?x => set (w2 := x) in * end.
  assert (HR : run_callbacks w2
               = set_status_label ""
                   (widget_update close_conn_button false
                      (set_main_state RUNNING
                         (set_meter (Some (meter_of w true true))
                            (on_open_conn_button w))))).
  { unfold w2, run_callbacks.
    change (status_label (on_open_conn_button w)) with sl.
    destruct (decide (sl <> "")) as [Hne|Heq]; [reflexivity|].
    destruct sl; [reflexivity|]. by destruct Heq. }
  pose proof (main_method_stopping outcome (on_close_conn_button (run_callbacks w2))
                (meter_of w true true) eq_refl) as H5.
  rewrite HR in H5. specialize (H5 eq_refl).
  match type of H5 with _ = Ok ?x => set (w5 := x) in * end.
  exists w2, w5. split; [exact H2|]. split; [by rewrite HR|].
  repeat (split; [reflexivity|]).
  split; [|repeat split; reflexivity].
  intros x Hx. destruct x; try discriminate Hx; reflexivity.
Qed.

(** The first session after the script was started. *)
Lemma open_close_cycle_restores_controls_witness :
  next_tick_callbacks initial_world = []
  /\ exists w2 w5,
       main_method connect_ok (on_open_conn_button initial_world) = Ok w2
       /\ main_method connect_ok (on_close_conn_button (run_callbacks w2)) = Ok w5
       /\ main_state (run_callbacks w5) = STOPPED
       /\ disabled (run_callbacks w5) open_conn_button = false
       /\ disabled (run_callbacks w5) close_conn_button = true.
Proof.
  split; [reflexivity|].
  destruct (open_close_cycle_restores_controls initial_world connect_ok eq_refl)
    as (w2 & w5 & H2 & H5 & Hs & _ & _ & Ho & _ & Hc & _).
  exists w2, w5. split; [exact H2|]. split; [exact H5|].
  split; [exact Hs|]. split; [exact Ho | exact Hc].
Defined.

(** ** Time strings and file names *)

(** The time string shown in the plot and in the status block carries the
    milliseconds of the clock reading truncated, not rounded: its last
    three digits are those of the microseconds divided by 1000. *)
Theorem datetime_string_truncates_to_milliseconds d :
  drop_last3 (strftime_HMSf d)
  = zero_pad 2 (hour d) (":" +:+ zero_pad 2 (minute d) (":" +:+ zero_pad 2 (second d)
      ("." +:+ zero_pad 3 (microsecond d / 1000) ""))).
Proof.
  cbv [drop_last3 strftime_HMSf zero_pad String.append String.length substring Nat.sub].
  replace (microsecond d / 10 / 10 / 10) with (microsecond d / 1000)
    by (rewrite !Z.div_div by lia; reflexivity).
  reflexivity.
Qed.

(** Half a microsecond short of the next second still shows 999 ms. *)
Example datetime_string_just_before_the_second :
  drop_last3 (strftime_HMSf {| year := 2023; month := 11; day := 25; hour := 9;
                               minute := 5; second := 7; microsecond := 999999 |})
  = "09:05:07.999".
Proof. reflexivity. Qed.

Lemma digit_is_not_space n : Ascii.eqb (digit n) " " = false.
Proof.
  unfold digit. pose proof (Z.mod_pos_bound n 10 eq_refl) as Hb.
  remember (Z.to_nat (n mod 10)) as k eqn:Hk.
  assert (Hlt : (k < 10)%nat) by lia. clear Hk Hb.
  do 10 (destruct k as [|k]; [reflexivity|]). lia.
Qed.

Lemma has_char_append c s1 s2 :
  has_char c (s1 +:+ s2) = has_char c s1 || has_char c s2.
Proof.
  induction s1 as [|x s1 IH]; [reflexivity|].
  change (String x s1 +:+ s2) with (String x (s1 +:+ s2)).
  cbn [has_char]. by rewrite IH, orb_assoc.
Qed.

Lemma replace_space_dash_has_no_space s :
  has_char " " (replace_space_dash s) = false.
Proof.
  induction s as [|x s IH]; [reflexivity|].
  cbn [replace_space_dash has_char]. rewrite IH, orb_false_r.
  destruct (Ascii.eqb x " ") eqn:E; [reflexivity | exact E].
Qed.

(** Whatever the title, the name of the CSV file contains no space: the
    spaces of the title were replaced and the timestamp has none. *)
Theorem csv_file_name_has_no_space datetime_now title :
  has_char " " (csv_file_name datetime_now title) = false.
Proof.
  unfold csv_file_name. rewrite !has_char_append, replace_space_dash_has_no_space.
  unfold strftime_Ymd_HMS. cbv [zero_pad String.append has_char].
  rewrite !digit_is_not_space. reflexivity.
Qed.

(** A title with spaces, as the user may type it. *)
Example csv_file_name_of_spaced_title :
  csv_file_name (noon_plus 0) "bench run 2" = "2023-11-25_12-00-00_bench-run-2.csv".
Proof. reflexivity. Qed.

(** ** The log file over a run of packets *)

(** What one handled measurement does to the files. *)
Lemma files_packet_effect d datetime_now w :
  csv_file (packet_effect d datetime_now w) = csv_file w
  /\ exists new_rows,
       (length new_rows <= 1)%nat
       /\ default [] (files (packet_effect d datetime_now w) !! csv_file w)
          = default [] (files w !! csv_file w) ++ new_rows
       /\ forall name, name <> csv_file w ->
            files (packet_effect d datetime_now w) !! name = files w !! name.
Proof.
  split; [reflexivity|]. unfold packet_effect.
  cbn [files set_last_meas_time set_last_plot_time set_last_log_time
       set_next_tick_callbacks set_files].
  destruct (logging w && gate_open (log_period_ms w) (last_log_time w) datetime_now).
  - eexists [_]. split; [cbn; lia|]. split.
    + by rewrite lookup_insert_eq.
    + intros name Hne. by apply lookup_insert_ne.
  - exists []. split; [cbn; lia|]. split; [by rewrite app_nil_r | done].
Qed.

(** Over any run of packets the log is append-only and stays in one file:
    the name of the sink does not change, the rows that were in it are
    still there, in front of at most one new row per packet, and no other
    file is touched. *)
Theorem log_is_append_only packet instants :
  forall w,
    exists w' new_rows,
      feed packet instants w = Ok w'
      /\ csv_file w' = csv_file w
      /\ (length new_rows <= length instants)%nat
      /\ default [] (files w' !! csv_file w)
         = default [] (files w !! csv_file w) ++ new_rows
      /\ forall name, name <> csv_file w -> files w' !! name = files w !! name.
Proof.
  induction instants as [|u rest IH]; intros w.
  - exists w, []. split; [reflexivity|]. split; [reflexivity|].
    split; [done|]. split; [by rewrite app_nil_r | done].
  - destruct (on_packet_cases packet u w) as [(_ & _ & E) | (_ & E)].
    + destruct (files_packet_effect (data (payload packet)) u w)
        as (Hname & rows1 & Hlen1 & Hrows1 & Hother1).
      set (w1 := packet_effect (data (payload packet)) u w) in *.
      destruct (IH w1) as (w' & rows2 & Hfeed & Hname2 & Hlen2 & Hrows2 & Hother2).
      rewrite Hname in Hrows2, Hother2, Hname2.
      exists w', (rows1 ++ rows2). split; [by rewrite (feed_cons _ _ _ _ _ E)|].
      split; [done|]. split; [rewrite length_app; cbn [length]; lia|].
      split; [by rewrite Hrows2, Hrows1, app_assoc|].
      intros name Hne. by rewrite Hother2, Hother1.
    + destruct (IH w) as (w' & rows & Hfeed & Hname & Hlen & Hrows & Hother).
      exists w', rows. split; [by rewrite (feed_cons _ _ _ _ _ E)|].
      split; [done|]. split; [cbn [length]; lia|]. by split.
Qed.

(** ** The plot window from any aligned state *)

Lemma lastn_all {A : Type} k (l : list A) : (length l <= k)%nat -> lastn k l = l.
Proof. intros H. unfold lastn. by replace (length l - k)%nat with 0%nat by lia. Qed.

(** One column after a run of [update]s. *)
Lemma column_after_snoc {A B : Type} (f : A -> B) cap (col : list B) (pts : list A) p :
  evict_front cap (lastn (Z.to_nat cap) (col ++ map f pts) ++ [f p])
  = lastn (Z.to_nat cap) (col ++ map f (pts ++ [p])).
Proof.
  by rewrite evict_front_drop, lastn_app_lastn, map_app, app_assoc.
Qed.

Lemma data_source_plot_all pts w :
  aligned (data_source w) ->
  data_source (plot_all pts w)
  = {| CDS.DateTime :=
         lastn (Z.to_nat MAX_X_POINTS)
           (CDS.DateTime (data_source w) ++ map pt_datetime pts);
       CDS.DateTimeStr :=
         lastn (Z.to_nat MAX_X_POINTS)
           (CDS.DateTimeStr (data_source w) ++ map pt_datetimestr pts);
       CDS.voltage :=
         lastn (Z.to_nat MAX_X_POINTS)
           (CDS.voltage (data_source w) ++ map pt_voltage pts);
       CDS.current :=
         lastn (Z.to_nat MAX_X_POINTS)
           (CDS.current (data_source w) ++ map pt_current pts);
       CDS.power :=
         lastn (Z.to_nat MAX_X_POINTS)
           (CDS.power (data_source w) ++ map pt_power pts) |}.
Proof.
  intros (H1 & H2 & H3 & H4 & Hb).
  induction pts as [|p pts IH] using rev_ind.
  - cbn [map plot_all fold_left]. rewrite !app_nil_r.
    rewrite !lastn_all by lia. by destruct (data_source w).
  - rewrite plot_all_snoc. unfold update at 1. cbn [data_source set_data_source].
    rewrite IH. unfold stream, columns_of.
    cbn [CDS.DateTime CDS.DateTimeStr CDS.voltage CDS.current CDS.power map].
    by rewrite !column_after_snoc.
Qed.

(** The five columns of the plot keep one common length, within
    [MAX_X_POINTS]: this holds of the cleared window and every [update]
    keeps it.  From any such window, streaming points leaves in every
    column the last [MAX_X_POINTS] values of what was there followed by the
    new ones. *)
Theorem plot_window_stays_aligned :
  aligned CDS.empty
  /\ (forall p w, aligned (data_source w) -> aligned (data_source (update p w)))
  /\ (forall pts w,
        aligned (data_source w) ->
        aligned (data_source (plot_all pts w))
        /\ CDS.DateTime (data_source (plot_all pts w))
           = lastn (Z.to_nat MAX_X_POINTS)
               (CDS.DateTime (data_source w) ++ map pt_datetime pts)
        /\ CDS.DateTimeStr (data_source (plot_all pts w))
           = lastn (Z.to_nat MAX_X_POINTS)
               (CDS.DateTimeStr (data_source w) ++ map pt_datetimestr pts)
        /\ CDS.voltage (data_source (plot_all pts w))
           = lastn (Z.to_nat MAX_X_POINTS)
               (CDS.voltage (data_source w) ++ map pt_voltage pts)
        /\ CDS.current (data_source (plot_all pts w))
           = lastn (Z.to_nat MAX_X_POINTS)
               (CDS.current (data_source w) ++ map pt_current pts)
        /\ CDS.power (data_source (plot_all pts w))
           = lastn (Z.to_nat MAX_X_POINTS)
               (CDS.power (data_source w) ++ map pt_power pts)).
Proof.
  assert (Hall : forall pts w,
            aligned (data_source w) -> aligned (data_source (plot_all pts w))).
  { intros pts w Ha. rewrite (data_source_plot_all pts w Ha).
    destruct Ha as (H1 & H2 & H3 & H4 & Hb). unfold aligned.
    cbn [CDS.DateTime CDS.DateTimeStr CDS.voltage CDS.current CDS.power].
    rewrite !length_lastn, !length_app, !length_map, H1, H2, H3, H4.
    unfold MAX_X_POINTS in *. repeat split; lia. }
  split; [|split].
  - unfold aligned, MAX_X_POINTS. cbn. repeat split; lia.
  - intros p w Ha. apply (Hall [p] w Ha).
  - intros pts w Ha. split; [by apply Hall|].
    rewrite (data_source_plot_all pts w Ha). repeat split; reflexivity.
Qed.

(** Two points streamed into the cleared window of the first session. *)
Lemma plot_window_stays_aligned_witness :
  aligned (data_source opening_world)
  /\ aligned (data_source
                (plot_all [plot_point true sample_data (noon_plus 0);
                           plot_point true sample_data (noon_plus 300)]
                   opening_world)).
Proof.
  assert (Ha : aligned (data_source opening_world))
    by exact (proj1 plot_window_stays_aligned).
  split; [exact Ha|].
  exact (proj1 (proj2 (proj2 plot_window_stays_aligned) _ opening_world Ha)).
Defined.
